(** * CustomBottomSheet: the gesture-to-animation state machine

    A shallow embedding of [src/CustomBottomSheet.tsx].  The component owns
    two shared values ([animatedHeight], [isDragging]), a gesture context
    ([ctx.startHeight]), and reacts to five kinds of stimuli: a change of the
    [visible] prop, the three pan-gesture callbacks, and a press on the
    backdrop.  The animation engine (react-native-reanimated) is an external
    collaborator; the part of its contract the component relies on is written
    out in [Module Engine].

    Numbers.  Heights are JavaScript numbers in the source.  The handlers
    only subtract and compare them, so heights are modelled as [Z] (a height
    in layout units); NaN and infinities are outside the model. *)

From Stdlib Require QArith.
From Stdlib Require Import String ZArith List Bool Lia.
Import ListNotations.
Local Open Scope Z_scope.

(** ** Props

    The fields of [CustomBottomSheetProps] that the logic reads.  [visible]
    changes over the life of the component and lives in the state below;
    the remaining props are fixed for a run.  [onHeightChange] is optional
    in the source: the boolean says whether the caller supplied it. *)
Record Props : Type := mkProps {
  height : Z;
  disableClose : bool;
  isModal : bool;
  minHeight : Z;
  maxHeight : Z;
  onHeightChange : bool;
  showBackdrop : bool
}.

(** ** Calls posted to the JS thread with [runOnJS]

    [closes] counts the invocations of [onClose]; [notified] lists the
    arguments [onHeightChange] was called with, oldest first. *)
Record JsLog : Type := mkJsLog {
  closes : nat;
  notified : list Z
}.

Definition runOnJS_onClose (l : JsLog) : JsLog :=
  mkJsLog (S (closes l)) (notified l).

Definition runOnJS_onHeightChange (h : Z) (l : JsLog) : JsLog :=
  mkJsLog (closes l) (notified l ++ [h]).

(** ** Animation descriptors

    What [withSpring(toValue, config)] and
    [withTiming(toValue, config, callback)] build. *)
Inductive Easing : Type := OutQuad.

Inductive AnimKind : Type :=
| Spring (damping stiffness : Z)
| Timing (duration : Z) (easing : Easing).

(** The only completion callback in the source, written twice (drag-end
    close branch and backdrop press):
    [(finished) => { if (finished) { runOnJS(onClose)(); } }]. *)
Inductive Callback : Type := CloseIfFinished.

Definition invoke (cb : Callback) (finished : bool) (l : JsLog) : JsLog :=
  match cb with
  | CloseIfFinished => if finished then runOnJS_onClose l else l
  end.

Record Animation : Type := mkAnimation {
  toValue : Z;
  kind : AnimKind;
  callback : option Callback
}.

Definition withSpring (target : Z) : Animation :=
  mkAnimation target (Spring 15 100) None.

Definition withTiming (target : Z) (cb : option Callback) : Animation :=
  mkAnimation target (Timing 300 OutQuad) cb.

(** ** Component state *)
Record SheetState : Type := mkSheet {
  animatedHeight : Z;            (* animatedHeight.value *)
  running : option Animation;    (* the animation driving animatedHeight *)
  isDragging : bool;             (* isDragging.value *)
  startHeight : option Z;        (* ctx.startHeight, undefined until onStart *)
  visible : bool;                (* the visible prop of the last render *)
  js : JsLog
}.

Definition set_height (v : Z) (st : SheetState) : SheetState :=
  mkSheet v (running st) (isDragging st) (startHeight st) (visible st) (js st).

Definition set_running (a : option Animation) (st : SheetState) : SheetState :=
  mkSheet (animatedHeight st) a (isDragging st) (startHeight st) (visible st)
          (js st).

Definition set_isDragging (b : bool) (st : SheetState) : SheetState :=
  mkSheet (animatedHeight st) (running st) b (startHeight st) (visible st)
          (js st).

Definition set_startHeight (s : Z) (st : SheetState) : SheetState :=
  mkSheet (animatedHeight st) (running st) (isDragging st) (Some s)
          (visible st) (js st).

Definition set_visible (b : bool) (st : SheetState) : SheetState :=
  mkSheet (animatedHeight st) (running st) (isDragging st) (startHeight st) b
          (js st).

Definition map_js (f : JsLog -> JsLog) (st : SheetState) : SheetState :=
  mkSheet (animatedHeight st) (running st) (isDragging st) (startHeight st)
          (visible st) (f (js st)).

(** The worklet passed to [useDerivedValue] (source lines 115-119):
    [if (onHeightChange) runOnJS(onHeightChange)(animatedHeight.value)]. *)
Definition heightWatcher (p : Props) (st : SheetState) : SheetState :=
  if onHeightChange p
  then map_js (runOnJS_onHeightChange (animatedHeight st)) st
  else st.

(** ** The engine contract

    - assigning to [animatedHeight.value] cancels the animation in flight,
      whose callback is called with [finished = false] (last write wins);
    - storing a value different from the current one re-runs the derived
      value worklet that reads it; the log below records these runs only
      (the engine may run the worklet more often, with the same value);
    - an animation in flight writes intermediate values frame by frame, and
      when it completes it stores [toValue] and calls its callback with
      [finished = true].

    [Engine.assignAnimation] puts the assigned animation in flight and
    leaves its completion to a later [Finish].  When the value already
    equals the target the engine starts nothing and calls the callback at
    once; [Module Exact] below adds that case to the assignment and to
    the handlers that assign animations. *)
Module Engine.

Definition cancelRunning (st : SheetState) : SheetState :=
  match running st with
  | None => st
  | Some a =>
      let st := set_running None st in
      match callback a with
      | Some cb => map_js (invoke cb false) st
      | None => st
      end
  end.

Definition store (p : Props) (v : Z) (st : SheetState) : SheetState :=
  if v =? animatedHeight st then st
  else heightWatcher p (set_height v st).

(** [animatedHeight.value = v] for a plain number [v]. *)
Definition assignNumber (p : Props) (v : Z) (st : SheetState) : SheetState :=
  store p v (cancelRunning st).

(** [animatedHeight.value = withSpring(...)] or [withTiming(...)]. *)
Definition assignAnimation (a : Animation) (st : SheetState) : SheetState :=
  set_running (Some a) (cancelRunning st).

(** One frame of the animation in flight. *)
Definition frame (p : Props) (v : Z) (st : SheetState) : option SheetState :=
  match running st with
  | None => None
  | Some _ => Some (store p v st)
  end.

(** The animation in flight completes. *)
Definition finish (p : Props) (st : SheetState) : option SheetState :=
  match running st with
  | None => None
  | Some a =>
      let st := set_running None (store p (toValue a) st) in
      Some match callback a with
           | Some cb => map_js (invoke cb true) st
           | None => st
           end
  end.

End Engine.

(** ** The component's handlers *)

(** The [useEffect] on [visible, height] (source lines 100-112). *)
Definition visibleEffect (p : Props) (st : SheetState) : SheetState :=
  if visible st
  then Engine.assignAnimation (withSpring (height p)) st
  else Engine.assignAnimation (withTiming 0 None) st.

(** [gestureHandler.onStart] (lines 125-128). *)
Definition onStart (st : SheetState) : SheetState :=
  set_isDragging true (set_startHeight (animatedHeight st) st).

(** [gestureHandler.onActive] (lines 129-136).  The result is [None] when
    [ctx.startHeight] is read while still undefined, which the gesture
    layer rules out by delivering [onStart] first. *)
Definition onActive (p : Props) (translationY : Z) (st : SheetState)
  : option SheetState :=
  if disableClose p then Some st
  else
    match startHeight st with
    | None => None
    | Some s =>
        let newHeight := s - translationY in
        let newHeight := Z.max (minHeight p) (Z.min (maxHeight p) newHeight) in
        Some (Engine.assignNumber p newHeight st)
    end.

(** [gestureHandler.onEnd] (lines 137-176). *)
Definition onEnd (p : Props) (st : SheetState) : SheetState :=
  let st := set_isDragging false st in
  if disableClose p then
    Engine.assignAnimation (withSpring (height p)) st
  else if animatedHeight st >=? maxHeight p then
    Engine.assignAnimation (withSpring (maxHeight p)) st
  else if animatedHeight st <=? minHeight p then
    Engine.assignAnimation (withSpring (minHeight p)) st
  else if animatedHeight st <? height p - 80 then
    Engine.assignAnimation (withTiming 0 (Some CloseIfFinished)) st
  else
    Engine.assignAnimation (withSpring (height p)) st.

(** [handleBackdropPress] (lines 190-205). *)
Definition handleBackdropPress (p : Props) (st : SheetState) : SheetState :=
  if negb (disableClose p)
  then Engine.assignAnimation (withTiming 0 (Some CloseIfFinished)) st
  else st.

(** ** What is on screen (lines 207-272)

    In modal mode everything sits inside [<Modal visible={visible}>]; the
    backdrop [Pressable] exists only there and only with [showBackdrop].
    Outside modal mode the sheet is always rendered. *)
Definition sheetRendered (p : Props) (st : SheetState) : bool :=
  if isModal p then visible st else true.

Definition backdropRendered (p : Props) (st : SheetState) : bool :=
  isModal p && visible st && showBackdrop p.

(** ** Mounting and events *)

(** First render: both shared values are created, the derived value runs
    once, then the effect runs with the initial [visible]. *)
Definition mount (p : Props) (visible0 : bool) : SheetState :=
  visibleEffect p
    (heightWatcher p (mkSheet 0 None false None visible0 (mkJsLog 0 []))).

Inductive Event : Type :=
| SetVisible (v : bool)            (* the parent re-renders with this prop *)
| PanStart
| PanActive (translationY : Z)
| PanEnd
| PressBackdrop
| Frame (v : Z)                    (* the engine writes an intermediate value *)
| Finish.                          (* the engine completes the animation *)

(** One event.  [None] means the event cannot be delivered in this state. *)
Definition step (p : Props) (st : SheetState) (e : Event)
  : option SheetState :=
  match e with
  | SetVisible v =>
      if Bool.eqb v (visible st) then Some st
      else Some (visibleEffect p (set_visible v st))
  | PanStart =>
      if sheetRendered p st then Some (onStart st) else None
  | PanActive ty =>
      if sheetRendered p st then onActive p ty st else None
  | PanEnd =>
      if sheetRendered p st then Some (onEnd p st) else None
  | PressBackdrop =>
      if backdropRendered p st then Some (handleBackdropPress p st) else None
  | Frame v => Engine.frame p v st
  | Finish => Engine.finish p st
  end.

Fixpoint run (p : Props) (st : SheetState) (evs : list Event)
  : option SheetState :=
  match evs with
  | [] => Some st
  | e :: evs' =>
      match step p st e with
      | Some st' => run p st' evs'
      | None => None
      end
  end.

(** ** Assignments that find the value already at the target

    What the engine does on [animatedHeight.value = withSpring(...)] or
    [withTiming(...)] in full: the animation in flight is cancelled, then,
    if the current value equals the target, nothing is started and the
    callback of the new animation is called at once with
    [finished = true]; otherwise the animation is put in flight.  The three
    handlers that assign animations, and with them mounting and the
    delivery of events, are restated over this assignment; [onStart] and
    [onActive] assign no animation and are shared. *)
Module Exact.

Definition assignAnimation (a : Animation) (st : SheetState) : SheetState :=
  let st := Engine.cancelRunning st in
  if animatedHeight st =? toValue a then
    match callback a with
    | Some cb => map_js (invoke cb true) st
    | None => st
    end
  else set_running (Some a) st.

(** The [useEffect] on [visible, height] (source lines 100-112). *)
Definition visibleEffect (p : Props) (st : SheetState) : SheetState :=
  if visible st
  then assignAnimation (withSpring (height p)) st
  else assignAnimation (withTiming 0 None) st.

(** [gestureHandler.onEnd] (lines 137-176). *)
Definition onEnd (p : Props) (st : SheetState) : SheetState :=
  let st := set_isDragging false st in
  if disableClose p then
    assignAnimation (withSpring (height p)) st
  else if animatedHeight st >=? maxHeight p then
    assignAnimation (withSpring (maxHeight p)) st
  else if animatedHeight st <=? minHeight p then
    assignAnimation (withSpring (minHeight p)) st
  else if animatedHeight st <? height p - 80 then
    assignAnimation (withTiming 0 (Some CloseIfFinished)) st
  else
    assignAnimation (withSpring (height p)) st.

(** [handleBackdropPress] (lines 190-205). *)
Definition handleBackdropPress (p : Props) (st : SheetState) : SheetState :=
  if negb (disableClose p)
  then assignAnimation (withTiming 0 (Some CloseIfFinished)) st
  else st.

Definition mount (p : Props) (visible0 : bool) : SheetState :=
  visibleEffect p
    (heightWatcher p (mkSheet 0 None false None visible0 (mkJsLog 0 []))).

Definition step (p : Props) (st : SheetState) (e : Event)
  : option SheetState :=
  match e with
  | SetVisible v =>
      if Bool.eqb v (visible st) then Some st
      else Some (visibleEffect p (set_visible v st))
  | PanStart =>
      if sheetRendered p st then Some (onStart st) else None
  | PanActive ty =>
      if sheetRendered p st then onActive p ty st else None
  | PanEnd =>
      if sheetRendered p st then Some (onEnd p st) else None
  | PressBackdrop =>
      if backdropRendered p st then Some (handleBackdropPress p st) else None
  | Frame v => Engine.frame p v st
  | Finish => Engine.finish p st
  end.

Fixpoint run (p : Props) (st : SheetState) (evs : list Event)
  : option SheetState :=
  match evs with
  | [] => Some st
  | e :: evs' =>
      match step p st e with
      | Some st' => run p st' evs'
      | None => None
      end
  end.

End Exact.

(** ** The snap policy, as the specification words it

    Written from the specification's drag-end rule, to be compared with
    [onEnd]: the cases are tried in order, so each one carries the failure
    of those before it. *)
Definition closeAnimation : Animation := withTiming 0 (Some CloseIfFinished).

Inductive SnapPolicy (p : Props) (h : Z) : Animation -> Prop :=
| snap_disabled :
    disableClose p = true ->
    SnapPolicy p h (withSpring (height p))
| snap_to_max :
    disableClose p = false ->
    maxHeight p <= h ->
    SnapPolicy p h (withSpring (maxHeight p))
| snap_to_min :
    disableClose p = false ->
    h < maxHeight p ->
    h <= minHeight p ->
    SnapPolicy p h (withSpring (minHeight p))
| snap_close :
    disableClose p = false ->
    h < maxHeight p ->
    minHeight p < h ->
    h < height p - 80 ->
    SnapPolicy p h closeAnimation
| snap_restore :
    disableClose p = false ->
    h < maxHeight p ->
    minHeight p < h ->
    height p - 80 <= h ->
    SnapPolicy p h (withSpring (height p)).

(** Is an animation with a completion callback in flight? *)
Definition callbackPending (st : SheetState) : bool :=
  match running st with
  | Some a => match callback a with Some _ => true | None => false end
  | None => false
  end.

Definition isFinish (e : Event) : bool :=
  match e with Finish => true | _ => false end.

(** Every animation the component ever assigns to [animatedHeight]. *)
Definition installable (p : Props) : list Animation :=
  [withSpring (height p); withSpring (maxHeight p); withSpring (minHeight p);
   withTiming 0 None]
  ++ (if disableClose p then [] else [closeAnimation]).

Definition wellAnimated (p : Props) (st : SheetState) : Prop :=
  match running st with
  | Some a => In a (installable p)
  | None => True
  end.

(** What the visibility effect alone leaves behind: its animation while
    in flight, its target once at rest. *)
Definition visibilityAnimation (p : Props) (v : bool) : Animation :=
  if v then withSpring (height p) else withTiming 0 None.

Definition visibilityDriven (p : Props) (st : SheetState) : Prop :=
  match running st with
  | Some a => a = visibilityAnimation p (visible st)
  | None => animatedHeight st = toValue (visibilityAnimation p (visible st))
  end.


(** ** Sample configurations

    A modal sheet opening at 500 that can be dragged between 0 and 700, the
    same with the lower drag bound raised to 200 (as in the README's
    advanced example), and the first one with closing disabled. *)
Definition sheet500 : Props := mkProps 500 false true 0 700 true true.
Definition sheet500_min200 : Props := mkProps 500 false true 200 700 true true.
Definition sheet500_locked : Props := mkProps 500 true true 0 700 true true.

(** Open the sheet and let the spring settle. *)
Definition opened (p : Props) : option SheetState :=
  run p (mount p false) [SetVisible true; Frame 350; Finish].

(** The open sheet just after a pan gesture has started on it. *)
Definition draggingAt500 : SheetState :=
  mkSheet 500 None true (Some 500) true (mkJsLog 0 [0; 350; 500]).

(** The open sheet at rest, and dragged down to 200 with the finger still
    on it. *)
Definition openAt500 : SheetState :=
  mkSheet 500 None false None true (mkJsLog 0 [0; 350; 500]).

Definition draggedTo200 : SheetState :=
  mkSheet 200 None true (Some 500) true (mkJsLog 0 [0; 350; 500; 200]).

(** ** Counting along a trace *)

(** The events that can ask for a close: a drag end and a backdrop press. *)
Definition isCloseRequest (e : Event) : bool :=
  match e with
  | PanEnd | PressBackdrop => true
  | _ => false
  end.

Definition closeRequests (evs : list Event) : nat :=
  List.length (filter isCloseRequest evs).

(** The events whose delivery involves no assignment of an animation. *)
Definition assignsNoAnimation (e : Event) : bool :=
  match e with
  | PanStart | PanActive _ | Frame _ | Finish => true
  | SetVisible _ | PanEnd | PressBackdrop => false
  end.

Definition isPanStart (e : Event) : bool :=
  match e with PanStart => true | _ => false end.

Definition isPanEnd (e : Event) : bool :=
  match e with PanEnd => true | _ => false end.

(** Further backdrop presses, each after some frames of the animation. *)
Definition pressAgain (vss : list (list Z)) : list Event :=
  flat_map (fun vs => map Frame vs ++ [PressBackdrop]) vss.

(** One if a completion callback is waiting, zero otherwise. *)
Definition pendingCount (st : SheetState) : nat :=
  if callbackPending st then 1%nat else 0%nat.

(** What the height observer has seen, when there is one: something, the
    last of it being the current height. *)
Definition observerUpToDate (p : Props) (st : SheetState) : Prop :=
  if onHeightChange p
  then notified (js st) <> [] /\
       last (notified (js st)) 0 = animatedHeight st
  else notified (js st) = [].

(** The drag flag as the gesture callbacks alone would leave it. *)
Fixpoint dragFlagAfter (flag : bool) (evs : list Event) : bool :=
  match evs with
  | [] => flag
  | PanStart :: evs' => dragFlagAfter true evs'
  | PanEnd :: evs' => dragFlagAfter false evs'
  | _ :: evs' => dragFlagAfter flag evs'
  end.

(** ** The handle bar (source lines 183-188, 231-236 and 262-264)

    [handleBarColor] and [handleBarColorActive] are optional strings.  The
    JavaScript [a || b] yields [a] when it is truthy, that is defined and
    not empty, and [b] otherwise. *)
Record HandleBarColors : Type := mkHandleBarColors {
  handleBarColor : option String.string;
  handleBarColorActive : option String.string
}.

Definition truthy (s : option String.string) : bool :=
  match s with
  | Some (String.String _ _) => true
  | Some String.EmptyString => false
  | None => false
  end.

Definition jsOr (a b : option String.string) : option String.string :=
  if truthy a then a else b.

(** The two style keys the handle bar logic sets; [scale] stands for
    [transform: [{ scale }]] and is [None] where no transform is given. *)
Record HandleBarStyle : Type := mkHandleBarStyle {
  backgroundColor : option String.string;
  scale : option QArith_base.Q
}.

(** [defaultStyles.handleBar] (lines 63-71). *)
Definition defaultHandleBar : HandleBarStyle :=
  mkHandleBarStyle (Some "#CCCCCC"%string) None.

(** [handleBarStyle] (lines 183-188). *)
Definition handleBarStyle (c : HandleBarColors) (st : SheetState)
  : HandleBarStyle :=
  mkHandleBarStyle
    (if isDragging st
     then jsOr (jsOr (handleBarColorActive c) (handleBarColor c))
               (Some "#666666"%string)
     else jsOr (handleBarColor c) (Some "#CCCCCC"%string))
    (Some (if isDragging st
           then QArith_base.Qmake 11 10
           else QArith_base.Qmake 1 1)).

(** A style array [[base, over]]: a later entry wins on the keys it sets,
    and a [false] entry, here [None], is skipped. *)
Definition overlay (base : HandleBarStyle) (over : option HandleBarStyle)
  : HandleBarStyle :=
  match over with
  | None => base
  | Some o =>
      mkHandleBarStyle
        (match backgroundColor o with
         | Some c => Some c
         | None => backgroundColor base
         end)
        (match scale o with
         | Some k => Some k
         | None => scale base
         end)
  end.

(** The style of the handle bar as rendered: in modal mode
    [[defaultStyles.handleBar, !disableClose && handleBarStyle]], otherwise
    [[defaultStyles.handleBar, handleBarStyle]]. *)
Definition renderedHandleBar (p : Props) (c : HandleBarColors)
  (st : SheetState) : HandleBarStyle :=
  if isModal p
  then overlay defaultHandleBar
         (if negb (disableClose p) then Some (handleBarStyle c st) else None)
  else overlay defaultHandleBar (Some (handleBarStyle c st)).

(** * Properties *)

(** The sample states are reachable. *)
Example draggingAt500_reached :
  run sheet500 (mount sheet500 false)
      [SetVisible true; Frame 350; Finish; PanStart]
  = Some draggingAt500.
Proof. reflexivity. Qed.

Example openAt500_reached : opened sheet500 = Some openAt500.
Proof. reflexivity. Qed.

Example draggedTo200_reached :
  run sheet500 draggingAt500 [PanActive 300] = Some draggedTo200.
Proof. reflexivity. Qed.

(** ** Basic facts about the engine *)

Lemma invoke_not_finished (cb : Callback) (l : JsLog) : invoke cb false l = l.
Proof. destruct cb; reflexivity. Qed.

Lemma map_js_same (f : JsLog -> JsLog) (st : SheetState) :
  f (js st) = js st -> map_js f st = st.
Proof. destruct st; unfold map_js; simpl; intros ->; reflexivity. Qed.

(** Superseding an animation only drops it: its callback sees
    [finished = false] and posts nothing. *)
Lemma cancelRunning_drops (st : SheetState) :
  Engine.cancelRunning st = set_running None st.
Proof.
  unfold Engine.cancelRunning.
  destruct (running st) as [a|] eqn:Hr.
  - cbv zeta. destruct (callback a) as [cb|]; [|reflexivity].
    apply map_js_same, invoke_not_finished.
  - destruct st; simpl in *; subst; reflexivity.
Qed.

Lemma assignAnimation_eq (a : Animation) (st : SheetState) :
  Engine.assignAnimation a st = set_running (Some a) st.
Proof.
  unfold Engine.assignAnimation. rewrite cancelRunning_drops.
  destruct st; reflexivity.
Qed.

Section StoreFacts.

Variables (p : Props) (v : Z) (st : SheetState).

(** Storing a value touches the height and the observer's log only. *)
Local Ltac store_cases :=
  unfold Engine.store, heightWatcher;
  destruct (v =? animatedHeight st), (onHeightChange p); reflexivity.

Lemma store_closes : closes (js (Engine.store p v st)) = closes (js st).
Proof. store_cases. Qed.

Lemma store_running : running (Engine.store p v st) = running st.
Proof. store_cases. Qed.

Lemma store_isDragging : isDragging (Engine.store p v st) = isDragging st.
Proof. store_cases. Qed.

Lemma store_visible : visible (Engine.store p v st) = visible st.
Proof. store_cases. Qed.

Lemma store_startHeight :
  startHeight (Engine.store p v st) = startHeight st.
Proof. store_cases. Qed.

Lemma store_height : animatedHeight (Engine.store p v st) = v.
Proof.
  unfold Engine.store, heightWatcher.
  destruct (Z.eqb_spec v (animatedHeight st)) as [->|_];
    [|destruct (onHeightChange p)]; reflexivity.
Qed.

End StoreFacts.

(** What the observer sees when a value is stored. *)
Lemma store_notified p v st :
  notified (js (Engine.store p v st)) =
  notified (js st) ++
    (if onHeightChange p && negb (v =? animatedHeight st) then [v] else []).
Proof.
  unfold Engine.store, heightWatcher.
  destruct (v =? animatedHeight st), (onHeightChange p); simpl;
    rewrite ?app_nil_r; reflexivity.
Qed.

(** Completing an animation, spelled out. *)
Lemma finish_spec p st a :
  running st = Some a ->
  exists st',
    Engine.finish p st = Some st' /\
    animatedHeight st' = toValue a /\
    running st' = None /\
    isDragging st' = isDragging st /\
    visible st' = visible st /\
    closes (js st') =
      match callback a with
      | Some CloseIfFinished => S (closes (js st))
      | None => closes (js st)
      end.
Proof.
  intros Hr. unfold Engine.finish. rewrite Hr. cbv zeta.
  eexists; split; [reflexivity|].
  destruct (callback a) as [[]|]; simpl;
    rewrite ?store_height, ?store_closes, ?store_isDragging, ?store_visible;
    repeat split; reflexivity.
Qed.

Lemma run_app p st evs1 evs2 :
  run p st (evs1 ++ evs2) =
  match run p st evs1 with
  | Some st' => run p st' evs2
  | None => None
  end.
Proof.
  revert st; induction evs1 as [|e evs1 IH]; intros st; simpl.
  - reflexivity.
  - destruct (step p st e); [apply IH | reflexivity].
Qed.

(** Frames keep the animation in flight; only the height moves. *)
Lemma run_frames p vs : forall st a,
  running st = Some a ->
  exists st',
    run p st (map Frame vs) = Some st' /\
    running st' = Some a /\
    closes (js st') = closes (js st) /\
    isDragging st' = isDragging st /\
    visible st' = visible st.
Proof.
  induction vs as [|v vs IH]; intros st a Hr; simpl.
  - exists st; auto.
  - unfold Engine.frame. rewrite Hr.
    destruct (IH (Engine.store p v st) a) as (st' & Hrun & H1 & H2 & H3 & H4).
    + rewrite store_running; exact Hr.
    + exists st'. rewrite Hrun, H1, H2, H3, H4.
      rewrite store_closes, store_isDragging, store_visible. auto.
Qed.

(** An animation left alone settles on its target, whatever the frames. *)
Lemma settles p vs st a :
  running st = Some a ->
  exists st',
    run p st (map Frame vs ++ [Finish]) = Some st' /\
    animatedHeight st' = toValue a /\
    running st' = None /\
    closes (js st') =
      match callback a with
      | Some CloseIfFinished => S (closes (js st))
      | None => closes (js st)
      end.
Proof.
  intros Hr.
  destruct (run_frames p vs st a Hr) as (st1 & Hrun & Hr1 & Hc & _ & _).
  destruct (finish_spec p st1 a Hr1) as (st2 & Hf & Hh & Hn & _ & _ & Hc2).
  exists st2. rewrite run_app, Hrun. simpl. rewrite Hf.
  rewrite Hc in Hc2. auto.
Qed.

(** ** Drag end: the snap policy *)

Lemma onEnd_fields p st :
  animatedHeight (onEnd p st) = animatedHeight st /\
  isDragging (onEnd p st) = false /\
  js (onEnd p st) = js st /\
  visible (onEnd p st) = visible st /\
  startHeight (onEnd p st) = startHeight st.
Proof.
  unfold onEnd. cbv zeta.
  repeat match goal with
         | |- context [if ?b then _ else _] => destruct b
         end;
    rewrite assignAnimation_eq; destruct st; simpl; auto.
Qed.

Lemma onEnd_policy p st :
  exists a,
    running (onEnd p st) = Some a /\ SnapPolicy p (animatedHeight st) a.
Proof.
  unfold onEnd. cbv zeta.
  replace (animatedHeight (set_isDragging false st)) with (animatedHeight st)
    by (destruct st; reflexivity).
  destruct (disableClose p) eqn:Hd.
  { eexists. rewrite assignAnimation_eq. split; [reflexivity|].
    now apply snap_disabled. }
  rewrite Z.geb_leb.
  destruct (Z.leb_spec (maxHeight p) (animatedHeight st)).
  { eexists. rewrite assignAnimation_eq. split; [reflexivity|].
    now apply snap_to_max. }
  destruct (Z.leb_spec (animatedHeight st) (minHeight p)).
  { eexists. rewrite assignAnimation_eq. split; [reflexivity|].
    now apply snap_to_min. }
  destruct (Z.ltb_spec (animatedHeight st) (height p - 80)).
  { eexists. rewrite assignAnimation_eq. split; [reflexivity|].
    now apply snap_close. }
  eexists. rewrite assignAnimation_eq. split; [reflexivity|].
  now apply snap_restore.
Qed.

(** The policy leaves no choice: one height, one action. *)
Lemma SnapPolicy_functional p h a1 a2 :
  SnapPolicy p h a1 -> SnapPolicy p h a2 -> a1 = a2.
Proof.
  intros H1 H2; destruct H1; destruct H2;
    try reflexivity; try congruence; try lia.
Qed.


(** ** Drag move: clamping *)

Lemma clamp_in_range lo hi x :
  lo <= hi -> lo <= Z.max lo (Z.min hi x) <= hi.
Proof. lia. Qed.

Lemma onActive_enabled p ty st s :
  disableClose p = false ->
  startHeight st = Some s ->
  onActive p ty st =
  Some (Engine.assignNumber p
          (Z.max (minHeight p) (Z.min (maxHeight p) (s - ty))) st).
Proof. intros Hd Hs. unfold onActive. rewrite Hd, Hs. reflexivity. Qed.

Lemma onActive_height p ty st st' :
  disableClose p = false ->
  onActive p ty st = Some st' ->
  exists s,
    startHeight st = Some s /\
    animatedHeight st' = Z.max (minHeight p) (Z.min (maxHeight p) (s - ty)).
Proof.
  intros Hd. unfold onActive. rewrite Hd.
  destruct (startHeight st) as [s|]; [|discriminate].
  intros [= <-]. exists s. split; [reflexivity|].
  unfold Engine.assignNumber. apply store_height.
Qed.

(** Without [minHeight <= maxHeight] only the lower bound survives. *)
Lemma drag_move_lower_bound p ty st st' :
  disableClose p = false ->
  onActive p ty st = Some st' ->
  minHeight p <= animatedHeight st'.
Proof.
  intros Hd Ha. destruct (onActive_height p ty st st' Hd Ha) as (s & _ & ->).
  lia.
Qed.

(** ** Drag handlers when closing is disabled *)

(** C9.  With [disableClose] the move handler returns the state it was
    given, untouched; the start handler raises the drag flag and the end
    handler lowers it, whatever [disableClose] is. *)
Theorem disabled_move_is_noop_flag_still_tracks
  (p : Props) (ty : Z) (st : SheetState) :
  (disableClose p = true -> onActive p ty st = Some st) /\
  isDragging (onStart st) = true /\
  isDragging (onEnd p st) = false.
Proof.
  split; [|split].
  - intros Hd. unfold onActive. now rewrite Hd.
  - reflexivity.
  - apply onEnd_fields.
Qed.

Lemma disabled_move_is_noop_flag_still_tracks_witness :
  onActive sheet500_locked 250 draggingAt500 = Some draggingAt500 /\
  isDragging (onStart draggingAt500) = true /\
  isDragging (onEnd sheet500_locked draggingAt500) = false.
Proof.
  destruct (disabled_move_is_noop_flag_still_tracks sheet500_locked 250
              draggingAt500) as (Hmove & Hstart & Hend).
  split; [exact (Hmove eq_refl)|]. split; [exact Hstart | exact Hend].
Defined.

(** ** One step, seen from the JS thread *)

Lemma cancelRunning_height st :
  animatedHeight (Engine.cancelRunning st) = animatedHeight st.
Proof. rewrite cancelRunning_drops; reflexivity. Qed.

Lemma cancelRunning_js st : js (Engine.cancelRunning st) = js st.
Proof. rewrite cancelRunning_drops; reflexivity. Qed.

Lemma visibleEffect_eq p st :
  visibleEffect p st =
  set_running
    (Some (if visible st then withSpring (height p) else withTiming 0 None))
    st.
Proof.
  unfold visibleEffect. destruct (visible st); apply assignAnimation_eq.
Qed.

Lemma handleBackdropPress_eq p st :
  handleBackdropPress p st =
  if disableClose p then st else set_running (Some closeAnimation) st.
Proof.
  unfold handleBackdropPress. destruct (disableClose p); simpl;
    [reflexivity | apply assignAnimation_eq].
Qed.

(** The close count moves only when an animation carrying the callback
    completes; every other event, superseding ones included, leaves it. *)
Lemma step_closes p st e st' :
  step p st e = Some st' ->
  closes (js st') =
  if isFinish e && callbackPending st
  then S (closes (js st)) else closes (js st).
Proof.
  destruct e; simpl.
  - destruct (Bool.eqb v (visible st)); intros [= <-]; [reflexivity|].
    rewrite visibleEffect_eq. reflexivity.
  - destruct (sheetRendered p st); intros [= <-]. reflexivity.
  - destruct (sheetRendered p st); [|discriminate].
    unfold onActive. destruct (disableClose p); [now intros [= <-]|].
    destruct (startHeight st); intros [= <-].
    unfold Engine.assignNumber. now rewrite store_closes, cancelRunning_js.
  - destruct (sheetRendered p st); intros [= <-].
    destruct (onEnd_fields p st) as (_ & _ & -> & _). reflexivity.
  - destruct (backdropRendered p st); intros [= <-].
    rewrite handleBackdropPress_eq. destruct (disableClose p); reflexivity.
  - unfold Engine.frame. destruct (running st); intros [= <-].
    apply store_closes.
  - unfold callbackPending.
    destruct (running st) as [a|] eqn:Hr;
      [|unfold Engine.finish; rewrite Hr; discriminate].
    destruct (finish_spec p st a Hr) as (st2 & -> & _ & _ & _ & _ & Hc).
    intros [= <-]. rewrite Hc. destruct (callback a) as [[]|]; reflexivity.
Qed.

(** The observer is told the new height exactly when a step changes it. *)
Lemma step_notified p st e st' :
  step p st e = Some st' ->
  notified (js st') =
  notified (js st) ++
    (if onHeightChange p && negb (animatedHeight st' =? animatedHeight st)
     then [animatedHeight st'] else []).
Proof.
  assert (Hsame : forall st1 : SheetState,
             animatedHeight st1 = animatedHeight st -> js st1 = js st ->
             notified (js st1) =
             notified (js st) ++
               (if onHeightChange p
                   && negb (animatedHeight st1 =? animatedHeight st)
                then [animatedHeight st1] else [])).
  { intros st1 -> ->. rewrite Z.eqb_refl, andb_false_r, app_nil_r.
    reflexivity. }
  destruct e; simpl.
  - destruct (Bool.eqb v (visible st)); intros [= <-]; [now apply Hsame|].
    rewrite visibleEffect_eq. now apply Hsame.
  - destruct (sheetRendered p st); intros [= <-]. now apply Hsame.
  - destruct (sheetRendered p st); [|discriminate].
    unfold onActive. destruct (disableClose p);
      [intros [= <-]; now apply Hsame|].
    destruct (startHeight st); intros [= <-].
    unfold Engine.assignNumber.
    rewrite store_notified, store_height, cancelRunning_js,
      cancelRunning_height. reflexivity.
  - destruct (sheetRendered p st); intros [= <-].
    destruct (onEnd_fields p st) as (Hh & _ & Hjs & _). now apply Hsame.
  - destruct (backdropRendered p st); intros [= <-].
    rewrite handleBackdropPress_eq.
    destruct (disableClose p); now apply Hsame.
  - unfold Engine.frame. destruct (running st); intros [= <-].
    rewrite store_notified, store_height. reflexivity.
  - unfold Engine.finish. destruct (running st) as [a|]; [|discriminate].
    cbv zeta. intros [= <-].
    destruct (callback a) as [[]|]; simpl;
      rewrite store_notified, store_height; reflexivity.
Qed.

(** C8.  Whenever an event changes the height and [onHeightChange] was
    supplied, the observer is called once more, with the height the event
    left; without an observer, or without a change, nothing is posted. *)
Theorem height_change_is_observed
  (p : Props) (st st' : SheetState) (e : Event) :
  step p st e = Some st' ->
  animatedHeight st' <> animatedHeight st ->
  notified (js st') =
  notified (js st) ++ (if onHeightChange p then [animatedHeight st'] else []).
Proof.
  intros Hstep Hne. rewrite (step_notified p st e st' Hstep).
  destruct (Z.eqb_spec (animatedHeight st') (animatedHeight st));
    [contradiction|].
  now rewrite andb_true_r.
Qed.

Lemma height_change_is_observed_witness :
  exists st',
    step sheet500 draggingAt500 (PanActive 120) = Some st' /\
    notified (js st') = notified (js draggingAt500) ++ [380].
Proof.
  eexists. split; [vm_compute; reflexivity|].
  refine (height_change_is_observed sheet500 draggingAt500 _ (PanActive 120)
            _ _).
  - vm_compute; reflexivity.
  - vm_compute; discriminate.
Defined.

(** ** Which animations can be in flight *)

Lemma SnapPolicy_installable p h a : SnapPolicy p h a -> In a (installable p).
Proof.
  unfold installable.
  intros []; simpl; auto 6.
  match goal with H : disableClose p = false |- _ => rewrite H end.
  simpl; auto 6.
Qed.

Lemma step_running p st e st' :
  step p st e = Some st' ->
  running st' = running st \/
  running st' = None \/
  exists a, running st' = Some a /\ In a (installable p).
Proof.
  destruct e; simpl.
  - destruct (Bool.eqb v (visible st)); intros [= <-]; [now left|].
    rewrite visibleEffect_eq. right; right. eexists; split; [reflexivity|].
    unfold installable. simpl. destruct v; simpl; auto 6.
  - destruct (sheetRendered p st); intros [= <-]. now left.
  - destruct (sheetRendered p st); [|discriminate].
    unfold onActive. destruct (disableClose p); [intros [= <-]; now left|].
    destruct (startHeight st); intros [= <-].
    right; left. unfold Engine.assignNumber.
    rewrite store_running, cancelRunning_drops. reflexivity.
  - destruct (sheetRendered p st); intros [= <-].
    destruct (onEnd_policy p st) as (a & Hr & Hpol).
    right; right. exists a. split; [exact Hr|].
    eapply SnapPolicy_installable; eauto.
  - destruct (backdropRendered p st); intros [= <-].
    rewrite handleBackdropPress_eq. unfold installable.
    destruct (disableClose p); [now left|].
    right; right. eexists; split; [reflexivity|]. simpl; auto 6.
  - unfold Engine.frame. destruct (running st) eqn:Hr; intros [= <-].
    left. now rewrite store_running.
  - destruct (running st) as [a|] eqn:Hr;
      [|unfold Engine.finish; rewrite Hr; discriminate].
    destruct (finish_spec p st a Hr) as (st2 & -> & _ & Hn & _).
    intros [= <-]. now right; left.
Qed.

Lemma mount_wellAnimated p v0 : wellAnimated p (mount p v0).
Proof.
  unfold wellAnimated, mount. rewrite visibleEffect_eq. simpl.
  unfold installable.
  destruct (visible (heightWatcher p _)); simpl; auto 6.
Qed.

Lemma step_wellAnimated p st e st' :
  wellAnimated p st -> step p st e = Some st' -> wellAnimated p st'.
Proof.
  unfold wellAnimated. intros Hw Hs.
  destruct (step_running p st e st' Hs) as [-> | [-> | (a & -> & Hin)]];
    auto.
Qed.

Lemma run_wellAnimated p evs : forall st st',
  wellAnimated p st -> run p st evs = Some st' -> wellAnimated p st'.
Proof.
  induction evs as [|e evs IH]; simpl; intros st st' Hw.
  - now intros [= <-].
  - destruct (step p st e) as [st1|] eqn:Hs; [|discriminate].
    apply IH. eapply step_wellAnimated; eauto.
Qed.

(** ** Closing disabled *)

Lemma locked_no_callback p st :
  disableClose p = true -> wellAnimated p st -> callbackPending st = false.
Proof.
  unfold wellAnimated, callbackPending, installable. intros ->.
  destruct (running st) as [a|]; [|reflexivity].
  simpl. intros [<- | [<- | [<- | [<- | []]]]]; reflexivity.
Qed.

Lemma locked_run_closes p evs : forall st st',
  disableClose p = true ->
  wellAnimated p st ->
  run p st evs = Some st' ->
  closes (js st') = closes (js st).
Proof.
  induction evs as [|e evs IH]; simpl; intros st st' Hd Hw.
  - now intros [= <-].
  - destruct (step p st e) as [st1|] eqn:Hs; [|discriminate].
    intros Hrun.
    rewrite (IH st1 st' Hd (step_wellAnimated p st e st1 Hw Hs) Hrun).
    rewrite (step_closes p st e st1 Hs), (locked_no_callback p st Hd Hw).
    now rewrite andb_false_r.
Qed.

(** C3.  With [disableClose] set, no sequence of events whatsoever (drags,
    backdrop presses, visibility changes, animation frames and
    completions) makes the component call [onClose]. *)
Theorem disabled_close_never_calls_onClose
  (p : Props) (visible0 : bool) (evs : list Event) (st : SheetState) :
  disableClose p = true ->
  run p (mount p visible0) evs = Some st ->
  closes (js st) = 0%nat.
Proof.
  intros Hd Hrun.
  rewrite (locked_run_closes p evs _ st Hd (mount_wellAnimated p visible0) Hrun).
  unfold mount. rewrite visibleEffect_eq. simpl.
  unfold heightWatcher. destruct (onHeightChange p); reflexivity.
Qed.

Lemma disabled_close_never_calls_onClose_witness :
  exists st,
    run sheet500_locked (mount sheet500_locked false)
        [SetVisible true; Finish; PanStart; PanActive 300; PanEnd; Frame 460;
         PressBackdrop; Finish; PressBackdrop; PanStart; PanEnd; Finish]
    = Some st /\
    closes (js st) = 0%nat.
Proof.
  eexists. split; [vm_compute; reflexivity|].
  refine (disabled_close_never_calls_onClose sheet500_locked false
            [SetVisible true; Finish; PanStart; PanActive 300; PanEnd;
             Frame 460; PressBackdrop; Finish; PressBackdrop; PanStart;
             PanEnd; Finish] _ eq_refl _).
  vm_compute; reflexivity.
Defined.

(** The same events with closing enabled do reach [onClose]: the drag is
    followed (500 - 300 = 200), ends below 420 and closes. *)
Example enabled_close_calls_onClose :
  exists st,
    run sheet500 (mount sheet500 false)
        [SetVisible true; Finish; PanStart; PanActive 300; PanEnd; Frame 140;
         Finish]
    = Some st /\
    animatedHeight st = 0 /\ closes (js st) = 1%nat.
Proof. eexists. split; [vm_compute; reflexivity|]. split; reflexivity. Qed.

(** ** The close callback and completion *)

Lemma nofinish_run_closes p evs : forall st st',
  existsb isFinish evs = false ->
  run p st evs = Some st' ->
  closes (js st') = closes (js st).
Proof.
  induction evs as [|e evs IH]; simpl; intros st st' Hnf.
  - now intros [= <-].
  - apply orb_false_iff in Hnf as [He Hnf].
    destruct (step p st e) as [st1|] eqn:Hs; [|discriminate].
    intros Hrun. rewrite (IH st1 st' Hnf Hrun).
    now rewrite (step_closes p st e st1 Hs), He.
Qed.




(** With no animation in flight there is nothing to complete. *)
Lemma nothing_to_settle p vs st :
  running st = None -> run p st (map Frame vs ++ [Finish]) = None.
Proof.
  intros Hn. destruct vs; simpl; unfold Engine.frame, Engine.finish;
    rewrite Hn; reflexivity.
Qed.

(** ** Backdrop press *)

(** Outside modal mode there is no backdrop to press. *)
Lemma no_backdrop_outside_modal p st :
  isModal p = false -> step p st PressBackdrop = None.
Proof. intros H. simpl. unfold backdropRendered. now rewrite H. Qed.

(** ** Drag end: the 80-unit threshold *)




(** ** Visibility changes *)

Lemma run_cons p st e evs :
  run p st (e :: evs) =
  match step p st e with
  | Some st' => run p st' evs
  | None => None
  end.
Proof. reflexivity. Qed.



Lemma mount_visibilityDriven p v0 : visibilityDriven p (mount p v0).
Proof.
  unfold visibilityDriven, mount. rewrite visibleEffect_eq. simpl.
  unfold heightWatcher. destruct (onHeightChange p); reflexivity.
Qed.

Lemma mount_closes p v0 : closes (js (mount p v0)) = 0%nat.
Proof.
  unfold mount. rewrite visibleEffect_eq. simpl.
  unfold heightWatcher. destruct (onHeightChange p); reflexivity.
Qed.

Lemma visibilityDriven_no_callback p st :
  visibilityDriven p st -> callbackPending st = false.
Proof.
  unfold visibilityDriven, callbackPending.
  destruct (running st) as [a|]; [|reflexivity].
  intros ->. destruct (visible st); reflexivity.
Qed.






(** ** Where the sheet comes to rest *)

Lemma installable_target p a :
  In a (installable p) ->
  In (toValue a) [0; height p; minHeight p; maxHeight p].
Proof.
  unfold installable. intros Hin.
  apply in_app_or in Hin as [Hin | Hin].
  - simpl in Hin. destruct Hin as [<- | [<- | [<- | [<- | []]]]];
      simpl; auto.
  - destruct (disableClose p); simpl in Hin; [contradiction|].
    destruct Hin as [<- | []]. simpl; auto.
Qed.

Lemma settled_height p evs v0 st :
  run p (mount p v0) (evs ++ [Finish]) = Some st ->
  In (animatedHeight st) [0; height p; minHeight p; maxHeight p].
Proof.
  rewrite run_app.
  destruct (run p (mount p v0) evs) as [st1|] eqn:Hrun; [|discriminate].
  pose proof (run_wellAnimated p evs _ st1 (mount_wellAnimated p v0) Hrun)
    as Hw.
  simpl. unfold wellAnimated in Hw.
  destruct (running st1) as [a|] eqn:Hr;
    [|unfold Engine.finish; rewrite Hr; discriminate].
  destruct (finish_spec p st1 a Hr) as (st2 & -> & Hh & _).
  intros [= <-]. rewrite Hh. now apply installable_target.
Qed.

(** C6, as amended.  Whenever an animation has just completed, in any
    run from mounting, the height is one of 0, the open height,
    [minHeight] and [maxHeight]; so with
    [minHeight <= height <= maxHeight] it is either 0, the closed sheet, or
    within the two bounds. *)
Theorem settled_height_closed_or_within_bounds
  (p : Props) (visible0 : bool) (evs : list Event) (st : SheetState) :
  minHeight p <= height p <= maxHeight p ->
  run p (mount p visible0) (evs ++ [Finish]) = Some st ->
  In (animatedHeight st) [0; height p; minHeight p; maxHeight p] /\
  (animatedHeight st = 0 \/
   minHeight p <= animatedHeight st <= maxHeight p).
Proof.
  intros Hcfg Hrun.
  pose proof (settled_height p evs visible0 st Hrun) as Hin.
  split; [exact Hin|].
  simpl in Hin. destruct Hin as [H | [H | [H | [H | []]]]];
    rewrite <- H; [left; reflexivity | right; lia ..].
Qed.

Lemma settled_height_closed_or_within_bounds_witness :
  exists st,
    run sheet500_min200 (mount sheet500_min200 false)
        ([SetVisible true; Frame 350; Finish; PanStart; PanActive 90; PanEnd]
         ++ [Finish])
    = Some st /\
    (animatedHeight st = 0 \/
     minHeight sheet500_min200 <= animatedHeight st
       <= maxHeight sheet500_min200).
Proof.
  eexists. split; [vm_compute; reflexivity|].
  refine (proj2 (settled_height_closed_or_within_bounds sheet500_min200 false
                   ([SetVisible true; Frame 350; Finish; PanStart;
                     PanActive 90; PanEnd]) _ _ _)).
  - vm_compute. split; discriminate.
  - vm_compute; reflexivity.
Defined.

(** With the drag bounds at 200 and 700 and the open height 500 in
    between, closing the sheet settles it at 0, below [minHeight]. *)
Lemma settled_closed_is_below_minHeight :
  exists st,
    run sheet500_min200 (mount sheet500_min200 false)
        ([SetVisible true; Finish; SetVisible false] ++ [Finish]) = Some st /\
    minHeight sheet500_min200 <= height sheet500_min200
      <= maxHeight sheet500_min200 /\
    ~ (minHeight sheet500_min200 <= animatedHeight st
         <= maxHeight sheet500_min200).
Proof.
  eexists. split; [vm_compute; reflexivity|].
  split; [vm_compute; split; discriminate|].
  vm_compute. intros [H _]. apply H. reflexivity.
Qed.

(** Nor does [minHeight <= maxHeight] alone keep the open height inside
    the bounds: opening settles at [height] whatever the bounds are. *)
Example settled_open_can_exceed_maxHeight :
  exists st,
    run (mkProps 500 false true 0 300 true true)
        (mount (mkProps 500 false true 0 300 true true) false)
        [SetVisible true; Finish] = Some st /\
    animatedHeight st = 500.
Proof. eexists. split; [vm_compute; reflexivity | reflexivity]. Qed.

(** * Further properties of the handlers *)

(** ** What a plain write leaves alone *)

Lemma assignNumber_fields p v st :
  animatedHeight (Engine.assignNumber p v st) = v /\
  running (Engine.assignNumber p v st) = None /\
  isDragging (Engine.assignNumber p v st) = isDragging st /\
  startHeight (Engine.assignNumber p v st) = startHeight st /\
  visible (Engine.assignNumber p v st) = visible st /\
  closes (js (Engine.assignNumber p v st)) = closes (js st).
Proof.
  unfold Engine.assignNumber.
  rewrite store_height, store_running, store_isDragging, store_startHeight,
    store_visible, store_closes, cancelRunning_drops.
  repeat split; reflexivity.
Qed.

Lemma sheetRendered_visible p st st' :
  visible st' = visible st -> sheetRendered p st' = sheetRendered p st.
Proof. unfold sheetRendered. now intros ->. Qed.

(** ** Moves within one gesture *)

Lemma run_moves (p : Props) (s : Z) (ts : list Z) :
  disableClose p = false ->
  forall (st : SheetState) (t : Z),
    sheetRendered p st = true ->
    startHeight st = Some s ->
    exists st',
      run p st (map PanActive (ts ++ [t])) = Some st' /\
      animatedHeight st' = Z.max (minHeight p) (Z.min (maxHeight p) (s - t)) /\
      running st' = None /\
      startHeight st' = Some s /\
      isDragging st' = isDragging st /\
      closes (js st') = closes (js st).
Proof.
  intros Hd. induction ts as [|t0 ts IH]; intros st t Hrend Hs.
  - simpl. rewrite Hrend, (onActive_enabled p t st s Hd Hs).
    destruct (assignNumber_fields p
                (Z.max (minHeight p) (Z.min (maxHeight p) (s - t))) st)
      as (Hh & Hr & Hdr & Hst & _ & Hc).
    eexists. split; [reflexivity|]. rewrite Hh, Hr, Hdr, Hst, Hc, Hs. repeat split; reflexivity.
  - cbn [app map]. rewrite run_cons. simpl step.
    rewrite Hrend, (onActive_enabled p t0 st s Hd Hs).
    set (st1 := Engine.assignNumber p _ st).
    destruct (assignNumber_fields p
                (Z.max (minHeight p) (Z.min (maxHeight p) (s - t0))) st)
      as (_ & _ & Hdr & Hst & Hv & Hc).
    fold st1 in Hdr, Hst, Hv, Hc.
    destruct (IH st1 t) as (st' & Hrun & Hh' & Hr' & Hs' & Hd' & Hc').
    + now rewrite (sheetRendered_visible p st st1 Hv).
    + now rewrite Hst.
    + exists st'. rewrite Hrun, Hh', Hr', Hs', Hd', Hc', Hdr, Hc.
      repeat split; reflexivity.
Qed.

(** Every move is measured from the height recorded at gesture start, not
    from the height the previous move left: after any number of moves the
    height is the start height minus the last translation, clamped, and no
    animation is in flight. *)
Theorem moves_are_relative_to_gesture_start
  (p : Props) (s : Z) (ts : list Z) (st : SheetState) (t : Z) :
  disableClose p = false ->
  sheetRendered p st = true ->
  startHeight st = Some s ->
  exists st',
    run p st (map PanActive (ts ++ [t])) = Some st' /\
    animatedHeight st' = Z.max (minHeight p) (Z.min (maxHeight p) (s - t)) /\
    running st' = None /\
    startHeight st' = Some s /\
    isDragging st' = isDragging st /\
    closes (js st') = closes (js st).
Proof. intros Hd Hrend Hs. exact (run_moves p s ts Hd st t Hrend Hs). Qed.

Lemma moves_are_relative_to_gesture_start_witness :
  exists st',
    run sheet500 draggingAt500 (map PanActive ([300; -50; 120] ++ [40]))
    = Some st' /\
    animatedHeight st' = 460.
Proof.
  destruct (moves_are_relative_to_gesture_start sheet500 500 [300; -50; 120]
              draggingAt500 40 eq_refl eq_refl eq_refl)
    as (st' & Hrun & Hh & _).
  exists st'. split; [exact Hrun | exact Hh].
Defined.

(** ** A whole drag gesture *)




(** ** How often [onClose] can be called *)

Lemma callbackPending_running st st' :
  running st' = running st -> callbackPending st' = callbackPending st.
Proof. unfold callbackPending. now intros ->. Qed.

Lemma callbackPending_none st : running st = None -> callbackPending st = false.
Proof. unfold callbackPending. now intros ->. Qed.

Lemma step_request_budget p st e st' :
  step p st e = Some st' ->
  (closes (js st') + pendingCount st' <=
   closes (js st) + pendingCount st + closeRequests [e])%nat.
Proof.
  intros Hs. pose proof (step_closes p st e st' Hs) as Hc.
  unfold pendingCount, closeRequests.
  destruct e; simpl in Hs, Hc |- *.
  - destruct (Bool.eqb v (visible st)); injection Hs as <-; [lia|].
    rewrite visibleEffect_eq. unfold callbackPending at 1. simpl.
    destruct v; simpl; lia.
  - destruct (sheetRendered p st); [|discriminate]. injection Hs as <-.
    rewrite (callbackPending_running st (onStart st) eq_refl). lia.
  - destruct (sheetRendered p st); [|discriminate].
    unfold onActive in Hs. destruct (disableClose p).
    + injection Hs as <-. lia.
    + destruct (startHeight st); [|discriminate]. injection Hs as <-.
      rewrite (callbackPending_none (Engine.assignNumber p _ st))
        by apply assignNumber_fields.
      rewrite Hc. lia.
  - rewrite Hc. destruct (callbackPending st'), (callbackPending st); lia.
  - rewrite Hc. destruct (callbackPending st'), (callbackPending st); lia.
  - unfold Engine.frame in Hs. destruct (running st) eqn:Hr; [|discriminate].
    injection Hs as <-.
    rewrite (callbackPending_running st (Engine.store p v st))
      by apply store_running.
    rewrite store_closes. lia.
  - rewrite Hc.
    assert (Hn : callbackPending st' = false).
    { apply callbackPending_none.
      destruct (running st) as [a|] eqn:Hr;
        [|unfold Engine.finish in Hs; rewrite Hr in Hs; discriminate].
      destruct (finish_spec p st a Hr) as (st2 & Hf & _ & Hn & _).
      rewrite Hf in Hs. injection Hs as <-. exact Hn. }
    rewrite Hn. destruct (callbackPending st); lia.
Qed.

Lemma closeRequests_cons e evs :
  closeRequests (e :: evs) = (closeRequests [e] + closeRequests evs)%nat.
Proof. unfold closeRequests. simpl. destruct (isCloseRequest e); reflexivity. Qed.

Lemma run_request_budget p evs : forall st st',
  run p st evs = Some st' ->
  (closes (js st') + pendingCount st' <=
   closes (js st) + pendingCount st + closeRequests evs)%nat.
Proof.
  induction evs as [|e evs IH]; intros st st' Hrun.
  - injection Hrun as <-. unfold closeRequests. simpl. lia.
  - rewrite run_cons in Hrun.
    destruct (step p st e) as [st1|] eqn:Hs; [|discriminate].
    pose proof (step_request_budget p st e st1 Hs).
    pose proof (IH st1 st' Hrun).
    rewrite closeRequests_cons. lia.
Qed.

(** Over any run from mounting, [onClose] is called at most once per drag
    end or backdrop press in the run, counting the close animation still in
    flight as a call to come. *)
Theorem onClose_at_most_once_per_request
  (p : Props) (visible0 : bool) (evs : list Event) (st : SheetState) :
  run p (mount p visible0) evs = Some st ->
  (closes (js st) + (if callbackPending st then 1 else 0)
   <= closeRequests evs)%nat.
Proof.
  intros Hrun. pose proof (run_request_budget p evs _ st Hrun) as H.
  rewrite mount_closes in H. unfold pendingCount in H.
  rewrite (visibilityDriven_no_callback p _ (mount_visibilityDriven p visible0))
    in H.
  exact H.
Qed.

Lemma onClose_at_most_once_per_request_witness :
  exists st,
    run sheet500 (mount sheet500 false)
        [SetVisible true; Finish; PressBackdrop; PressBackdrop; Frame 100;
         PanStart; PanEnd] = Some st /\
    (closes (js st) + (if callbackPending st then 1 else 0) <= 3)%nat.
Proof.
  eexists. split; [vm_compute; reflexivity|].
  refine (onClose_at_most_once_per_request sheet500 false
            [SetVisible true; Finish; PressBackdrop; PressBackdrop; Frame 100;
             PanStart; PanEnd] _ _).
  vm_compute; reflexivity.
Defined.

(** ** What the height observer sees *)

Lemma last_snoc (l : list Z) (x d : Z) : last (l ++ [x]) d = x.
Proof.
  induction l as [|a l IH]; [reflexivity|].
  simpl. destruct (l ++ [x]) eqn:E; [|exact IH].
  destruct l; discriminate E.
Qed.

Lemma mount_observer p v0 : observerUpToDate p (mount p v0).
Proof.
  unfold observerUpToDate, mount. rewrite visibleEffect_eq. simpl.
  unfold heightWatcher.
  destruct (onHeightChange p); simpl; [split; [discriminate|]|]; reflexivity.
Qed.

Lemma step_observer p st e st' :
  step p st e = Some st' ->
  observerUpToDate p st ->
  observerUpToDate p st'.
Proof.
  intros Hs Hup. pose proof (step_notified p st e st' Hs) as Hn.
  unfold observerUpToDate in *.
  destruct (onHeightChange p); simpl in Hn.
  - destruct Hup as [Hne Hlast].
    destruct (Z.eqb_spec (animatedHeight st') (animatedHeight st)) as [Heq|Hneq];
      simpl in Hn.
    + rewrite app_nil_r in Hn. rewrite Hn, Heq. auto.
    + rewrite Hn. split; [|apply last_snoc].
      destruct (notified (js st)); discriminate.
  - rewrite app_nil_r in Hn. now rewrite Hn.
Qed.

Lemma run_observer p evs : forall st st',
  run p st evs = Some st' ->
  observerUpToDate p st ->
  observerUpToDate p st'.
Proof.
  induction evs as [|e evs IH]; intros st st' Hrun Hinv.
  - injection Hrun as <-. exact Hinv.
  - rewrite run_cons in Hrun.
    destruct (step p st e) as [st1|] eqn:Hs; [|discriminate].
    apply (IH st1 st' Hrun). eapply step_observer; eauto.
Qed.

(** At every point of every run from mounting, a supplied height observer
    has been called at least once and its most recent argument is the
    current height; without an observer nothing is ever posted. *)
Theorem observer_last_seen_is_current
  (p : Props) (visible0 : bool) (evs : list Event) (st : SheetState) :
  run p (mount p visible0) evs = Some st ->
  if onHeightChange p
  then notified (js st) <> [] /\
       last (notified (js st)) 0 = animatedHeight st
  else notified (js st) = [].
Proof.
  intros Hrun.
  exact (run_observer p evs _ st Hrun (mount_observer p visible0)).
Qed.

Lemma observer_last_seen_is_current_witness :
  exists st,
    run sheet500 (mount sheet500 false)
        [SetVisible true; Frame 350; Frame 350; PanStart; PanActive 20;
         PanEnd; Frame 495] = Some st /\
    last (notified (js st)) 0 = animatedHeight st.
Proof.
  eexists. split; [vm_compute; reflexivity|].
  refine (proj2 (observer_last_seen_is_current sheet500 false
                   [SetVisible true; Frame 350; Frame 350; PanStart;
                    PanActive 20; PanEnd; Frame 495] _ _)).
  vm_compute; reflexivity.
Defined.

(** ** The drag flag *)

Lemma step_isDragging p st e st' :
  step p st e = Some st' ->
  isDragging st' = dragFlagAfter (isDragging st) [e].
Proof.
  destruct e; simpl.
  - destruct (Bool.eqb v (visible st)); intros [= <-]; [reflexivity|].
    rewrite visibleEffect_eq. reflexivity.
  - destruct (sheetRendered p st); intros [= <-]. reflexivity.
  - destruct (sheetRendered p st); [|discriminate].
    unfold onActive. destruct (disableClose p); [now intros [= <-]|].
    destruct (startHeight st); intros [= <-]. apply assignNumber_fields.
  - destruct (sheetRendered p st); intros [= <-]. apply onEnd_fields.
  - destruct (backdropRendered p st); intros [= <-].
    rewrite handleBackdropPress_eq. destruct (disableClose p); reflexivity.
  - unfold Engine.frame. destruct (running st); intros [= <-].
    apply store_isDragging.
  - destruct (running st) as [a|] eqn:Hr;
      [|unfold Engine.finish; rewrite Hr; discriminate].
    destruct (finish_spec p st a Hr) as (st2 & -> & _ & _ & Hd & _).
    now intros [= <-].
Qed.

(** Only the gesture callbacks write [isDragging]: after any run the flag
    is set exactly if the run's last gesture start has had no gesture end
    after it (or, with neither in the run, if it was set before).
    Visibility changes, backdrop presses, moves and animations never touch
    it. *)
Theorem drag_flag_follows_gestures
  (p : Props) (evs : list Event) : forall (st st' : SheetState),
  run p st evs = Some st' ->
  isDragging st' = dragFlagAfter (isDragging st) evs.
Proof.
  induction evs as [|e evs IH]; intros st st' Hrun.
  - now injection Hrun as <-.
  - rewrite run_cons in Hrun.
    destruct (step p st e) as [st1|] eqn:Hs; [|discriminate].
    rewrite (IH st1 st' Hrun), (step_isDragging p st e st1 Hs).
    destruct e; reflexivity.
Qed.

Lemma drag_flag_follows_gestures_witness :
  exists st',
    run sheet500 openAt500
        [PanStart; PanActive 30; PressBackdrop; Frame 200; Finish]
    = Some st' /\
    isDragging st' = true.
Proof.
  eexists. split; [vm_compute; reflexivity|].
  refine (drag_flag_follows_gestures sheet500
            [PanStart; PanActive 30; PressBackdrop; Frame 200; Finish]
            openAt500 _ _).
  vm_compute; reflexivity.
Defined.

(** ** Visibility changes override everything else *)



(** ** A gesture on a sheet that cannot be closed *)




(** ** Heights at rest *)

Lemma step_resting p st e st' :
  minHeight p <= height p <= maxHeight p ->
  wellAnimated p st ->
  (running st = None ->
   animatedHeight st = 0 \/
   minHeight p <= animatedHeight st <= maxHeight p) ->
  step p st e = Some st' ->
  running st' = None ->
  animatedHeight st' = 0 \/
  minHeight p <= animatedHeight st' <= maxHeight p.
Proof.
  intros Hcfg Hw Hrest Hs Hn. destruct e; simpl in Hs.
  - destruct (Bool.eqb v (visible st)); injection Hs as <-; [auto|].
    rewrite visibleEffect_eq in Hn. discriminate Hn.
  - destruct (sheetRendered p st); [|discriminate]. injection Hs as <-.
    apply Hrest. exact Hn.
  - destruct (sheetRendered p st); [|discriminate].
    unfold onActive in Hs. destruct (disableClose p).
    + injection Hs as <-. auto.
    + destruct (startHeight st); [|discriminate]. injection Hs as <-.
      right. destruct (assignNumber_fields p
                         (Z.max (minHeight p)
                            (Z.min (maxHeight p) (z - translationY))) st)
        as (-> & _).
      apply clamp_in_range. lia.
  - destruct (sheetRendered p st); [|discriminate]. injection Hs as <-.
    destruct (onEnd_policy p st) as (a & Ha & _).
    rewrite Ha in Hn. discriminate Hn.
  - destruct (backdropRendered p st); [|discriminate]. injection Hs as <-.
    rewrite handleBackdropPress_eq in *.
    destruct (disableClose p); [auto | discriminate Hn].
  - unfold Engine.frame in Hs. destruct (running st) eqn:Hr; [|discriminate].
    injection Hs as <-. rewrite store_running, Hr in Hn. discriminate Hn.
  - destruct (running st) as [a|] eqn:Hr;
      [|unfold Engine.finish in Hs; rewrite Hr in Hs; discriminate].
    destruct (finish_spec p st a Hr) as (st2 & Hf & Hh & _).
    rewrite Hf in Hs. injection Hs as <-. rewrite Hh.
    unfold wellAnimated in Hw. rewrite Hr in Hw.
    apply installable_target in Hw. simpl in Hw.
    destruct Hw as [H | [H | [H | [H | []]]]]; rewrite <- H;
      [left; reflexivity | right; lia ..].
Qed.

(** Given [minHeight <= height <= maxHeight]: whenever no animation is in
    flight, be it after an animation has completed or in the middle of a
    drag, the height is 0 or lies within the two bounds. *)
Theorem resting_height_closed_or_within_bounds
  (p : Props) (visible0 : bool) (evs : list Event) (st : SheetState) :
  minHeight p <= height p <= maxHeight p ->
  run p (mount p visible0) evs = Some st ->
  running st = None ->
  animatedHeight st = 0 \/
  minHeight p <= animatedHeight st <= maxHeight p.
Proof.
  intros Hcfg.
  assert (Hgen : forall evs st0 st1,
             wellAnimated p st0 ->
             (running st0 = None ->
              animatedHeight st0 = 0 \/
              minHeight p <= animatedHeight st0 <= maxHeight p) ->
             run p st0 evs = Some st1 ->
             running st1 = None ->
             animatedHeight st1 = 0 \/
             minHeight p <= animatedHeight st1 <= maxHeight p).
  { clear evs st. induction evs as [|e evs IH]; intros st0 st1 Hw Hrest Hrun.
    - injection Hrun as <-. exact Hrest.
    - rewrite run_cons in Hrun.
      destruct (step p st0 e) as [st2|] eqn:Hs; [|discriminate].
      apply (IH st2 st1); [eapply step_wellAnimated; eauto| |exact Hrun].
      eapply step_resting; eauto. }
  intros Hrun. apply (Hgen evs (mount p visible0) st); auto.
  - apply mount_wellAnimated.
  - intros Hn. unfold mount in Hn. rewrite visibleEffect_eq in Hn.
    discriminate Hn.
Qed.

Lemma resting_height_closed_or_within_bounds_witness :
  exists st,
    run sheet500_min200 (mount sheet500_min200 false)
        [SetVisible true; Frame 350; PanStart; PanActive 270] = Some st /\
    running st = None /\
    (animatedHeight st = 0 \/
     minHeight sheet500_min200 <= animatedHeight st
       <= maxHeight sheet500_min200).
Proof.
  eexists. split; [vm_compute; reflexivity|]. split; [reflexivity|].
  refine (resting_height_closed_or_within_bounds sheet500_min200 false
            [SetVisible true; Frame 350; PanStart; PanActive 270] _ _ _ _).
  - vm_compute. split; discriminate.
  - vm_compute; reflexivity.
  - reflexivity.
Defined.

(** ** The handle bar *)

Lemma jsOr_fallback_truthy a b : truthy b = true -> truthy (jsOr a b) = true.
Proof. unfold jsOr. intros Hb. destruct (truthy a) eqn:Ha; assumption. Qed.

Lemma overlay_backgroundColor_truthy base over :
  truthy (backgroundColor base) = true ->
  (forall o, over = Some o -> truthy (backgroundColor o) = true) ->
  truthy (backgroundColor (overlay base over)) = true.
Proof.
  intros Hb Ho. destruct over as [o|]; [|exact Hb].
  specialize (Ho o eq_refl). simpl.
  destruct (backgroundColor o); [exact Ho | discriminate Ho].
Qed.

(** Whatever colours the caller passes (none, empty strings, or real
    ones), in either mode and whether or not a drag is in progress, the
    handle bar is painted with a defined, non-empty colour. *)
Theorem handle_bar_colour_never_empty
  (p : Props) (c : HandleBarColors) (st : SheetState) :
  truthy (backgroundColor (handleBarStyle c st)) = true /\
  truthy (backgroundColor (renderedHandleBar p c st)) = true.
Proof.
  assert (Hstyle : truthy (backgroundColor (handleBarStyle c st)) = true).
  { unfold handleBarStyle. simpl.
    destruct (isDragging st); apply jsOr_fallback_truthy; reflexivity. }
  split; [exact Hstyle|].
  unfold renderedHandleBar.
  destruct (isModal p); [destruct (disableClose p)|];
    apply overlay_backgroundColor_truthy; try reflexivity;
    intros o [= <-]; exact Hstyle.
Qed.

(** When the style is applied (outside modal mode, or with closing
    enabled): with a usable [handleBarColor] and no usable
    [handleBarColorActive], the bar keeps [handleBarColor] while dragged,
    so the active colour defaults to the idle one; a usable
    [handleBarColorActive] is what a dragged bar shows; and an idle bar
    never shows it. *)
Theorem handle_bar_active_colour_defaults_to_colour
  (p : Props) (c : HandleBarColors) (idle dragged : SheetState) :
  isModal p && disableClose p = false ->
  isDragging idle = false ->
  isDragging dragged = true ->
  (truthy (handleBarColor c) = true ->
   backgroundColor (renderedHandleBar p c idle) = handleBarColor c) /\
  (truthy (handleBarColor c) = true ->
   truthy (handleBarColorActive c) = false ->
   backgroundColor (renderedHandleBar p c dragged) = handleBarColor c) /\
  (truthy (handleBarColorActive c) = true ->
   backgroundColor (renderedHandleBar p c dragged) = handleBarColorActive c).
Proof.
  intros Hmode Hidle Hdrag.
  assert (Hrender : forall st,
             backgroundColor (renderedHandleBar p c st) =
             match backgroundColor (handleBarStyle c st) with
             | Some col => Some col
             | None => Some "#CCCCCC"%string
             end).
  { intros st. unfold renderedHandleBar.
    destruct (isModal p), (disableClose p); try discriminate Hmode;
      reflexivity. }
  rewrite !Hrender. unfold handleBarStyle. simpl. rewrite Hidle, Hdrag.
  unfold jsOr. repeat split.
  - intros Hc. rewrite Hc. destruct (handleBarColor c);
      [reflexivity | discriminate Hc].
  - intros Hc Ha. rewrite Ha, Hc. destruct (handleBarColor c);
      [reflexivity | discriminate Hc].
  - intros Ha. rewrite Ha. simpl. rewrite Ha.
    destruct (handleBarColorActive c); [reflexivity | discriminate Ha].
Qed.

Lemma handle_bar_active_colour_defaults_to_colour_witness :
  backgroundColor
    (renderedHandleBar sheet500
       (mkHandleBarColors (Some "#336699"%string) (Some ""%string))
       draggingAt500)
  = Some "#336699"%string.
Proof.
  exact (proj1 (proj2
           (handle_bar_active_colour_defaults_to_colour sheet500
              (mkHandleBarColors (Some "#336699"%string) (Some ""%string))
              openAt500 draggingAt500 eq_refl eq_refl eq_refl))
           eq_refl eq_refl).
Defined.

(** In modal mode with [disableClose] the style is not applied at all:
    the bar keeps the default look, whatever colours are passed and
    whether or not it is being dragged. *)
Lemma handle_bar_locked_modal_is_default p c st :
  isModal p = true ->
  disableClose p = true ->
  renderedHandleBar p c st = defaultHandleBar.
Proof. unfold renderedHandleBar. intros -> ->. reflexivity. Qed.

(** ** Backdrop presses *)

Lemma backdropRendered_visible p st st' :
  visible st' = visible st -> backdropRendered p st' = backdropRendered p st.
Proof. unfold backdropRendered. now intros ->. Qed.

Lemma run_without_backdrop p evs : forall st st',
  isModal p && showBackdrop p = false ->
  run p st evs = Some st' ->
  closeRequests evs = List.length (filter isPanEnd evs).
Proof.
  induction evs as [|e evs IH]; intros st st' Hoff Hrun; [reflexivity|].
  rewrite run_cons in Hrun.
  destruct (step p st e) as [st1|] eqn:Hs; [|discriminate].
  rewrite closeRequests_cons, (IH st1 st' Hoff Hrun).
  destruct e; try reflexivity.
  simpl in Hs. unfold backdropRendered in Hs.
  destruct (isModal p), (showBackdrop p), (visible st);
    simpl in *; discriminate.
Qed.

(** Outside modal mode, or with [showBackdrop] off, there is no backdrop
    to press: no run contains an accepted backdrop press, and [onClose] is
    called at most once per drag end. *)
Theorem without_backdrop_only_drags_close
  (p : Props) (visible0 : bool) (evs : list Event) (st : SheetState) :
  isModal p && showBackdrop p = false ->
  run p (mount p visible0) evs = Some st ->
  existsb (fun e => match e with PressBackdrop => true | _ => false end) evs
  = false /\
  (closes (js st) + (if callbackPending st then 1 else 0)
   <= List.length (filter isPanEnd evs))%nat.
Proof.
  intros Hoff Hrun. split.
  - clear - Hoff Hrun. revert Hrun. generalize (mount p visible0).
    induction evs as [|e evs IH]; intros st0 Hrun; [reflexivity|].
    rewrite run_cons in Hrun.
    destruct (step p st0 e) as [st1|] eqn:Hs; [|discriminate].
    simpl. rewrite (IH st1 Hrun).
    destruct e; try reflexivity.
    simpl in Hs. unfold backdropRendered in Hs.
    destruct (isModal p), (showBackdrop p), (visible st0);
      simpl in *; discriminate.
  - rewrite <- (run_without_backdrop p evs _ st Hoff Hrun).
    pose proof (run_request_budget p evs _ st Hrun) as H.
    rewrite mount_closes in H. unfold pendingCount in H.
    rewrite (visibilityDriven_no_callback p _
               (mount_visibilityDriven p visible0)) in H.
    exact H.
Qed.

Lemma without_backdrop_only_drags_close_witness :
  exists st,
    run (mkProps 500 false false 0 700 true true)
        (mount (mkProps 500 false false 0 700 true true) true)
        [Finish; PanStart; PanActive 200; PanEnd; Finish] = Some st /\
    (closes (js st) + (if callbackPending st then 1 else 0) <= 1)%nat.
Proof.
  eexists. split; [vm_compute; reflexivity|].
  refine (proj2 (without_backdrop_only_drags_close
                   (mkProps 500 false false 0 700 true true) true
                   [Finish; PanStart; PanActive 200; PanEnd; Finish] _
                   eq_refl _)).
  vm_compute; reflexivity.
Defined.

(** * The handlers with the exact assignment *)

(** The sample states are reached with the exact assignment too; mounting
    hidden finds the height already at 0 and starts nothing. *)
Example mount_hidden_starts_nothing :
  running (Exact.mount sheet500 false) = None.
Proof. reflexivity. Qed.

Example openAt500_reached_exactly :
  Exact.run sheet500 (Exact.mount sheet500 false)
    [SetVisible true; Frame 350; Finish] = Some openAt500.
Proof. reflexivity. Qed.

Example draggedTo200_reached_exactly :
  Exact.run sheet500 openAt500 [PanStart; PanActive 300] = Some draggedTo200.
Proof. reflexivity. Qed.

(** ** The assignment itself *)

Lemma exact_assign_at_target a st :
  animatedHeight st = toValue a ->
  Exact.assignAnimation a st =
  match callback a with
  | Some cb => map_js (invoke cb true) (set_running None st)
  | None => set_running None st
  end.
Proof.
  intros Heq. unfold Exact.assignAnimation. rewrite cancelRunning_drops.
  cbv zeta. change (animatedHeight (set_running None st))
    with (animatedHeight st).
  rewrite Heq, Z.eqb_refl. reflexivity.
Qed.

Lemma exact_assign_in_flight a st :
  animatedHeight st <> toValue a ->
  Exact.assignAnimation a st = set_running (Some a) st.
Proof.
  intros Hne. unfold Exact.assignAnimation. rewrite cancelRunning_drops.
  cbv zeta. change (animatedHeight (set_running None st))
    with (animatedHeight st).
  destruct (Z.eqb_spec (animatedHeight st) (toValue a)); [contradiction|].
  destruct st; reflexivity.
Qed.

Lemma exact_assign_fields a st :
  animatedHeight (Exact.assignAnimation a st) = animatedHeight st /\
  isDragging (Exact.assignAnimation a st) = isDragging st /\
  startHeight (Exact.assignAnimation a st) = startHeight st /\
  visible (Exact.assignAnimation a st) = visible st /\
  notified (js (Exact.assignAnimation a st)) = notified (js st).
Proof.
  destruct (Z.eq_dec (animatedHeight st) (toValue a)) as [Heq | Hne].
  - rewrite (exact_assign_at_target a st Heq).
    destruct (callback a) as [[]|]; repeat split; reflexivity.
  - rewrite (exact_assign_in_flight a st Hne). repeat split; reflexivity.
Qed.

(** Either the callback is called now, or it waits for completion. *)
Lemma exact_assign_closes a st :
  (animatedHeight st = toValue a /\
   running (Exact.assignAnimation a st) = None /\
   closes (js (Exact.assignAnimation a st)) =
     match callback a with
     | Some CloseIfFinished => S (closes (js st))
     | None => closes (js st)
     end) \/
  (animatedHeight st <> toValue a /\
   running (Exact.assignAnimation a st) = Some a /\
   closes (js (Exact.assignAnimation a st)) = closes (js st)).
Proof.
  destruct (Z.eq_dec (animatedHeight st) (toValue a)) as [Heq | Hne].
  - left. rewrite (exact_assign_at_target a st Heq).
    destruct (callback a) as [[]|]; repeat split; auto.
  - right. rewrite (exact_assign_in_flight a st Hne). repeat split; auto.
Qed.

Lemma exact_assign_budget a st :
  (closes (js st) <= closes (js (Exact.assignAnimation a st)))%nat /\
  (closes (js (Exact.assignAnimation a st))
   + pendingCount (Exact.assignAnimation a st)
   = closes (js st) + match callback a with Some _ => 1 | None => 0 end)%nat.
Proof.
  unfold pendingCount, callbackPending.
  destruct (exact_assign_closes a st) as [(_ & -> & ->) | (_ & -> & ->)];
    destruct (callback a) as [[]|]; lia.
Qed.

(** ** The handlers *)

Lemma exact_visibleEffect_eq p st :
  Exact.visibleEffect p st =
  Exact.assignAnimation (visibilityAnimation p (visible st)) st.
Proof. unfold Exact.visibleEffect. destruct (visible st); reflexivity. Qed.

Lemma exact_handleBackdropPress_eq p st :
  Exact.handleBackdropPress p st =
  if disableClose p then st else Exact.assignAnimation closeAnimation st.
Proof.
  unfold Exact.handleBackdropPress. destruct (disableClose p); reflexivity.
Qed.

Lemma exact_onEnd_policy p st :
  exists a,
    SnapPolicy p (animatedHeight st) a /\
    Exact.onEnd p st = Exact.assignAnimation a (set_isDragging false st).
Proof.
  unfold Exact.onEnd. cbv zeta.
  replace (animatedHeight (set_isDragging false st)) with (animatedHeight st)
    by (destruct st; reflexivity).
  destruct (disableClose p) eqn:Hd.
  { eexists. split; [now apply snap_disabled | reflexivity]. }
  rewrite Z.geb_leb.
  destruct (Z.leb_spec (maxHeight p) (animatedHeight st)).
  { eexists. split; [now apply snap_to_max | reflexivity]. }
  destruct (Z.leb_spec (animatedHeight st) (minHeight p)).
  { eexists. split; [now apply snap_to_min | reflexivity]. }
  destruct (Z.ltb_spec (animatedHeight st) (height p - 80)).
  { eexists. split; [now apply snap_close | reflexivity]. }
  eexists. split; [now apply snap_restore | reflexivity].
Qed.

Lemma exact_onEnd_close_branch p st :
  disableClose p = false ->
  minHeight p < animatedHeight st < maxHeight p ->
  animatedHeight st < height p - 80 ->
  Exact.onEnd p st =
  Exact.assignAnimation closeAnimation (set_isDragging false st).
Proof.
  intros Hd Hb Hlt.
  destruct (exact_onEnd_policy p st) as (a & Hpol & ->).
  f_equal. eapply SnapPolicy_functional; [exact Hpol|].
  apply snap_close; auto; lia.
Qed.

(** ** Events that assign no animation are delivered as before *)

Lemma exact_step_shared p st e :
  assignsNoAnimation e = true -> Exact.step p st e = step p st e.
Proof. destruct e; simpl; intros H; try discriminate H; reflexivity. Qed.

Lemma exact_run_shared p evs : forall st,
  forallb assignsNoAnimation evs = true ->
  Exact.run p st evs = run p st evs.
Proof.
  induction evs as [|e evs IH]; intros st Hall; [reflexivity|].
  simpl in Hall. apply andb_true_iff in Hall as [He Hall].
  simpl. rewrite (exact_step_shared p st e He).
  destruct (step p st e); [now apply IH | reflexivity].
Qed.

Lemma frames_assign_nothing vs tail :
  forallb assignsNoAnimation tail = true ->
  forallb assignsNoAnimation (map Frame vs ++ tail) = true.
Proof.
  intros Ht. induction vs as [|v vs IH]; [exact Ht | exact IH].
Qed.

Lemma exact_run_app p st evs1 evs2 :
  Exact.run p st (evs1 ++ evs2) =
  match Exact.run p st evs1 with
  | Some st' => Exact.run p st' evs2
  | None => None
  end.
Proof.
  revert st; induction evs1 as [|e evs1 IH]; intros st; simpl.
  - reflexivity.
  - destruct (Exact.step p st e); [apply IH | reflexivity].
Qed.

Lemma exact_run_cons p st e evs :
  Exact.run p st (e :: evs) =
  match Exact.step p st e with
  | Some st' => Exact.run p st' evs
  | None => None
  end.
Proof. reflexivity. Qed.

Lemma last_cons_default (v : Z) (vs : list Z) (d d' : Z) :
  last (v :: vs) d = last (v :: vs) d'.
Proof.
  revert v; induction vs as [|w vs IH]; intros v; [reflexivity|].
  change (last (w :: vs) d = last (w :: vs) d'). apply IH.
Qed.

(** Frames leave the last value they wrote. *)
Lemma frames_height p vs : forall st st',
  run p st (map Frame vs) = Some st' ->
  animatedHeight st' = last vs (animatedHeight st).
Proof.
  induction vs as [|v vs IH]; intros st st' Hrun.
  - now injection Hrun as <-.
  - cbn [map] in Hrun. rewrite run_cons in Hrun. simpl step in Hrun.
    unfold Engine.frame in Hrun.
    destruct (running st); [|discriminate].
    rewrite (IH _ _ Hrun), store_height.
    destruct vs as [|w vs]; [reflexivity|].
    change (last (v :: w :: vs) (animatedHeight st))
      with (last (w :: vs) (animatedHeight st)).
    apply last_cons_default.
Qed.

Lemma exact_frames p vs st a :
  running st = Some a ->
  exists st',
    Exact.run p st (map Frame vs) = Some st' /\
    running st' = Some a /\
    closes (js st') = closes (js st) /\
    isDragging st' = isDragging st /\
    visible st' = visible st /\
    animatedHeight st' = last vs (animatedHeight st).
Proof.
  intros Hr.
  destruct (run_frames p vs st a Hr) as (st' & Hrun & H1 & H2 & H3 & H4).
  exists st'. rewrite exact_run_shared.
  - repeat split; auto. now apply (frames_height p vs st st').
  - rewrite <- (app_nil_r (map Frame vs)). now apply frames_assign_nothing.
Qed.

Lemma exact_settles p vs st a :
  running st = Some a ->
  exists st',
    Exact.run p st (map Frame vs ++ [Finish]) = Some st' /\
    animatedHeight st' = toValue a /\
    running st' = None /\
    closes (js st') =
      match callback a with
      | Some CloseIfFinished => S (closes (js st))
      | None => closes (js st)
      end.
Proof.
  intros Hr. destruct (settles p vs st a Hr) as (st' & Hrun & H).
  exists st'. rewrite exact_run_shared; [auto|].
  now apply frames_assign_nothing.
Qed.

(** ** Drag moves and the height at gesture start *)

Lemma finish_startHeight p st st' :
  Engine.finish p st = Some st' -> startHeight st' = startHeight st.
Proof.
  unfold Engine.finish. destruct (running st) as [a|]; [|discriminate].
  cbv zeta. intros [= <-].
  destruct (callback a) as [[]|]; simpl; apply store_startHeight.
Qed.

(** Only [onStart] writes [ctx.startHeight]. *)
Lemma exact_step_startHeight p st e st' :
  Exact.step p st e = Some st' ->
  isPanStart e = false ->
  startHeight st' = startHeight st.
Proof.
  destruct e; simpl; intros Hs Hnot; try discriminate Hnot.
  - destruct (Bool.eqb v (visible st)); injection Hs as <-; [reflexivity|].
    rewrite exact_visibleEffect_eq.
    destruct (exact_assign_fields
                (visibilityAnimation p (visible (set_visible v st)))
                (set_visible v st)) as (_ & _ & -> & _).
    reflexivity.
  - destruct (sheetRendered p st); [|discriminate].
    unfold onActive in Hs. destruct (disableClose p).
    + now injection Hs as <-.
    + destruct (startHeight st) eqn:Hst; [|discriminate].
      injection Hs as <-. rewrite <- Hst. apply assignNumber_fields.
  - destruct (sheetRendered p st); [|discriminate]. injection Hs as <-.
    destruct (exact_onEnd_policy p st) as (a & _ & ->).
    destruct (exact_assign_fields a (set_isDragging false st))
      as (_ & _ & -> & _).
    reflexivity.
  - destruct (backdropRendered p st); [|discriminate]. injection Hs as <-.
    rewrite exact_handleBackdropPress_eq.
    destruct (disableClose p); [reflexivity|].
    apply exact_assign_fields.
  - unfold Engine.frame in Hs. destruct (running st); [|discriminate].
    injection Hs as <-. apply store_startHeight.
  - now apply (finish_startHeight p).
Qed.

Lemma exact_run_startHeight p evs : forall st st',
  existsb isPanStart evs = false ->
  Exact.run p st evs = Some st' ->
  startHeight st' = startHeight st.
Proof.
  induction evs as [|e evs IH]; intros st st' Hnone Hrun.
  - now injection Hrun as <-.
  - simpl in Hnone. apply orb_false_iff in Hnone as [He Hnone].
    rewrite exact_run_cons in Hrun.
    destruct (Exact.step p st e) as [st1|] eqn:Hs; [|discriminate].
    rewrite (IH st1 st' Hnone Hrun).
    now apply (exact_step_startHeight p st e).
Qed.

(** C2.  With closing enabled: a move that follows a gesture start is
    accepted and sets the height to the height the sheet had when the
    gesture started minus the translation, clamped with
    [max(minHeight, min(maxHeight, .))]; the same holds for every later
    move of the gesture, whatever events come in between, as long as no
    new gesture starts; and the height left by any move event of any run is
    at least [minHeight] and, when [minHeight <= maxHeight], at most
    [maxHeight]. *)
Theorem drag_move_clamps_height (p : Props) :
  disableClose p = false ->
  (forall st ty,
      sheetRendered p st = true ->
      exists st',
        Exact.run p st [PanStart; PanActive ty] = Some st' /\
        animatedHeight st' =
          Z.max (minHeight p) (Z.min (maxHeight p) (animatedHeight st - ty))) /\
  (forall st evs ty st',
      existsb isPanStart evs = false ->
      Exact.run p st ([PanStart] ++ evs ++ [PanActive ty]) = Some st' ->
      animatedHeight st' =
        Z.max (minHeight p) (Z.min (maxHeight p) (animatedHeight st - ty))) /\
  (forall st0 evs ty st',
      Exact.run p st0 (evs ++ [PanActive ty]) = Some st' ->
      minHeight p <= animatedHeight st' /\
      (minHeight p <= maxHeight p -> animatedHeight st' <= maxHeight p)).
Proof.
  intros Hd.
  assert (Hmove : forall st ty st',
             Exact.step p st (PanActive ty) = Some st' ->
             exists s,
               startHeight st = Some s /\
               animatedHeight st' =
                 Z.max (minHeight p) (Z.min (maxHeight p) (s - ty))).
  { intros st ty st' Hs. simpl in Hs.
    destruct (sheetRendered p st); [|discriminate].
    now apply onActive_height. }
  split; [|split].
  - intros st ty Hrend.
    rewrite exact_run_cons. simpl Exact.step. rewrite Hrend.
    rewrite exact_run_cons. simpl Exact.step.
    rewrite (sheetRendered_visible p st (onStart st) eq_refl), Hrend.
    rewrite (onActive_enabled p ty (onStart st) (animatedHeight st) Hd eq_refl).
    eexists. split; [reflexivity|].
    apply assignNumber_fields.
  - intros st evs ty st' Hnone Hrun.
    cbn [app] in Hrun. rewrite exact_run_cons in Hrun.
    destruct (Exact.step p st PanStart) as [st0|] eqn:Hstart; [|discriminate].
    assert (Hs0 : startHeight st0 = Some (animatedHeight st)).
    { simpl in Hstart. destruct (sheetRendered p st); [|discriminate].
      now injection Hstart as <-. }
    rewrite exact_run_app in Hrun.
    destruct (Exact.run p st0 evs) as [st1|] eqn:Hevs; [|discriminate].
    rewrite exact_run_cons in Hrun.
    destruct (Exact.step p st1 (PanActive ty)) as [st2|] eqn:Hact;
      [|discriminate].
    injection Hrun as <-.
    destruct (Hmove st1 ty st2 Hact) as (s & Hs & ->).
    rewrite (exact_run_startHeight p evs st0 st1 Hnone Hevs), Hs0 in Hs.
    now injection Hs as <-.
  - intros st0 evs ty st' Hrun. rewrite exact_run_app in Hrun.
    destruct (Exact.run p st0 evs) as [st1|]; [|discriminate].
    rewrite exact_run_cons in Hrun.
    destruct (Exact.step p st1 (PanActive ty)) as [st2|] eqn:Hact;
      [|discriminate].
    injection Hrun as <-.
    destruct (Hmove st1 ty st2 Hact) as (s & _ & ->). lia.
Qed.

Lemma drag_move_clamps_height_witness :
  (exists st',
      Exact.run sheet500 openAt500 [PanStart; PanActive 30] = Some st' /\
      animatedHeight st' = 470) /\
  (exists st',
      Exact.run sheet500 openAt500
        ([PanStart] ++ [PanActive 30; PressBackdrop; Frame 455; PanActive 90]
         ++ [PanActive (-900)]) = Some st' /\
      animatedHeight st' = 700).
Proof.
  destruct (drag_move_clamps_height sheet500 eq_refl) as (Hfirst & Hlater & _).
  split.
  - destruct (Hfirst openAt500 30 eq_refl) as (st' & Hrun & Hh).
    exists st'. split; [exact Hrun | exact Hh].
  - eexists. split; [vm_compute; reflexivity|].
    refine (Hlater openAt500
              [PanActive 30; PressBackdrop; Frame 455; PanActive 90] (-900) _
              eq_refl _).
    vm_compute; reflexivity.
Defined.

(** ** When [onClose] is called *)

Lemma finish_closes p st st' :
  Engine.finish p st = Some st' ->
  running st' = None /\
  closes (js st') =
  if callbackPending st then S (closes (js st)) else closes (js st).
Proof.
  intros Hf. unfold callbackPending.
  destruct (running st) as [a|] eqn:Hr;
    [|unfold Engine.finish in Hf; rewrite Hr in Hf; discriminate].
  destruct (finish_spec p st a Hr) as (st2 & Hf2 & _ & Hn & _ & _ & Hc).
  rewrite Hf2 in Hf. injection Hf as <-.
  split; [exact Hn|]. rewrite Hc. destruct (callback a) as [[]|]; reflexivity.
Qed.

(** A step raises the close count by at most one, and only where a
    callback is called with [finished = true]: when the animation
    carrying it completes, or when a drag end or a backdrop press, with
    closing enabled, assigns the close animation at height 0. *)
Lemma exact_step_closes p st e st' :
  Exact.step p st e = Some st' ->
  closes (js st') = closes (js st) \/
  (closes (js st') = S (closes (js st)) /\
   ((e = Finish /\ callbackPending st = true) \/
    (isCloseRequest e = true /\ disableClose p = false /\
     animatedHeight st = 0))).
Proof.
  destruct e; simpl; intros Hs.
  - left. destruct (Bool.eqb v (visible st)); injection Hs as <-;
      [reflexivity|].
    rewrite exact_visibleEffect_eq.
    destruct (exact_assign_closes
                (visibilityAnimation p (visible (set_visible v st)))
                (set_visible v st)) as [(_ & _ & ->) | (_ & _ & ->)];
      [destruct v|]; reflexivity.
  - left. destruct (sheetRendered p st); [|discriminate].
    now injection Hs as <-.
  - left. destruct (sheetRendered p st); [|discriminate].
    unfold onActive in Hs. destruct (disableClose p);
      [now injection Hs as <-|].
    destruct (startHeight st); [|discriminate]. injection Hs as <-.
    apply assignNumber_fields.
  - destruct (sheetRendered p st); [|discriminate]. injection Hs as <-.
    destruct (exact_onEnd_policy p st) as (a & Hpol & ->).
    destruct (exact_assign_closes a (set_isDragging false st))
      as [(Heq & _ & ->) | (_ & _ & ->)]; [|now left].
    destruct (callback a) as [[]|] eqn:Hcb; [|now left].
    right. split; [reflexivity|]. right.
    assert (Ha : a = closeAnimation).
    { destruct Hpol; try discriminate Hcb. reflexivity. }
    subst a. simpl in Heq.
    repeat split; [|exact Heq].
    remember closeAnimation as c eqn:E.
    destruct Hpol; try (cbv in E; discriminate E); assumption.
  - destruct (backdropRendered p st); [|discriminate]. injection Hs as <-.
    rewrite exact_handleBackdropPress_eq.
    destruct (disableClose p) eqn:Hd; [now left|].
    destruct (exact_assign_closes closeAnimation st)
      as [(Heq & _ & ->) | (_ & _ & ->)]; [|now left].
    right. split; [reflexivity|]. right. repeat split. exact Heq.
  - left. unfold Engine.frame in Hs. destruct (running st); [|discriminate].
    injection Hs as <-. apply store_closes.
  - destruct (finish_closes p st st' Hs) as [_ Hc].
    destruct (callbackPending st); [right | left]; auto.
Qed.

(** With no callback waiting, nothing but a new request brings one. *)
Lemma exact_step_quiet p st e st' :
  callbackPending st = false ->
  isCloseRequest e = false ->
  Exact.step p st e = Some st' ->
  closes (js st') = closes (js st) /\ callbackPending st' = false.
Proof.
  intros Hq He Hs.
  split.
  - destruct (exact_step_closes p st e st' Hs)
      as [H | (_ & [(_ & Hp) | (Hr & _)])]; [exact H | |].
    + rewrite Hq in Hp. discriminate Hp.
    + rewrite He in Hr. discriminate Hr.
  - destruct e; simpl in Hs; try discriminate He.
    + destruct (Bool.eqb v (visible st)); injection Hs as <-; [exact Hq|].
      rewrite exact_visibleEffect_eq. unfold callbackPending.
      destruct (exact_assign_closes
                  (visibilityAnimation p (visible (set_visible v st)))
                  (set_visible v st)) as [(_ & -> & _) | (_ & -> & _)];
        [reflexivity | destruct v; reflexivity].
    + destruct (sheetRendered p st); [|discriminate].
      now injection Hs as <-.
    + destruct (sheetRendered p st); [|discriminate].
      unfold onActive in Hs. destruct (disableClose p);
        [now injection Hs as <-|].
      destruct (startHeight st); [|discriminate]. injection Hs as <-.
      apply callbackPending_none, assignNumber_fields.
    + unfold Engine.frame in Hs. destruct (running st) eqn:Hr;
        [|discriminate].
      injection Hs as <-. rewrite <- Hq.
      apply callbackPending_running, store_running.
    + apply callbackPending_none. now apply (finish_closes p st st').
Qed.

Lemma closeRequests_none e evs :
  closeRequests (e :: evs) = 0%nat ->
  isCloseRequest e = false /\ closeRequests evs = 0%nat.
Proof.
  rewrite closeRequests_cons. unfold closeRequests at 1. simpl.
  destruct (isCloseRequest e); simpl; intros H; [discriminate H | auto].
Qed.

Lemma exact_run_quiet p evs : forall st st',
  callbackPending st = false ->
  closeRequests evs = 0%nat ->
  Exact.run p st evs = Some st' ->
  closes (js st') = closes (js st) /\ callbackPending st' = false.
Proof.
  induction evs as [|e evs IH]; intros st st' Hq Hnone Hrun.
  - injection Hrun as <-. auto.
  - apply closeRequests_none in Hnone as [He Hnone].
    rewrite exact_run_cons in Hrun.
    destruct (Exact.step p st e) as [st1|] eqn:Hs; [|discriminate].
    destruct (exact_step_quiet p st e st1 Hq He Hs) as [Hc1 Hq1].
    destruct (IH st1 st' Hq1 Hnone Hrun) as [Hc Hq'].
    split; [now rewrite Hc, Hc1 | exact Hq'].
Qed.

(** A new request cancels whatever callback was waiting: afterwards at
    most one call has been made or is still to come. *)
Lemma exact_step_request p st e st' :
  isCloseRequest e = true ->
  Exact.step p st e = Some st' ->
  (closes (js st') + pendingCount st' <= S (closes (js st)))%nat \/
  (disableClose p = true /\ e = PressBackdrop /\ st' = st).
Proof.
  destruct e; simpl; intros He Hs; try discriminate He.
  - left. destruct (sheetRendered p st); [|discriminate]. injection Hs as <-.
    destruct (exact_onEnd_policy p st) as (a & _ & ->).
    destruct (exact_assign_budget a (set_isDragging false st)) as [_ Hb].
    simpl in Hb. destruct (callback a); lia.
  - destruct (backdropRendered p st); [|discriminate]. injection Hs as <-.
    rewrite exact_handleBackdropPress_eq.
    destruct (disableClose p); [right; auto|]. left.
    destruct (exact_assign_budget closeAnimation st) as [_ Hb].
    simpl in Hb. lia.
Qed.

(** ** A backdrop press, from press to completion *)

(** C7.  In modal mode with closing enabled, whenever the backdrop is on
    screen (the sheet is visible and [showBackdrop] is set), a backdrop
    press is accepted and leaves the height as it is.  Above or below 0
    it puts the eased timing animation to 0 in flight, carrying the close
    callback, without calling [onClose] itself; when that animation
    completes, after any number of frames, the height is 0 and [onClose]
    has been called once.  At height 0 there is nothing to animate: the
    completion is reported at once, so after the press no animation is in
    flight, the height is 0 and [onClose] has been called once. *)
Theorem backdrop_press_closes (p : Props) (st : SheetState) :
  isModal p = true ->
  showBackdrop p = true ->
  visible st = true ->
  disableClose p = false ->
  exists st1,
    Exact.step p st PressBackdrop = Some st1 /\
    animatedHeight st1 = animatedHeight st /\
    (animatedHeight st <> 0 ->
     running st1 = Some (withTiming 0 (Some CloseIfFinished)) /\
     closes (js st1) = closes (js st) /\
     forall vs, exists st2,
       Exact.run p st1 (map Frame vs ++ [Finish]) = Some st2 /\
       animatedHeight st2 = 0 /\
       closes (js st2) = S (closes (js st))) /\
    (animatedHeight st = 0 ->
     running st1 = None /\
     animatedHeight st1 = 0 /\
     closes (js st1) = S (closes (js st))).
Proof.
  intros Hm Hb Hv Hd. simpl. unfold backdropRendered.
  rewrite Hm, Hb, Hv, exact_handleBackdropPress_eq, Hd. simpl.
  eexists. split; [reflexivity|].
  destruct (exact_assign_fields closeAnimation st) as (Hh & _).
  split; [exact Hh|]. split.
  - intros Hne.
    destruct (exact_assign_closes closeAnimation st)
      as [(Heq & _) | (_ & Hr & Hc)]; [contradiction|].
    split; [exact Hr|]. split; [exact Hc|]. intros vs.
    destruct (exact_settles p vs _ _ Hr) as (st2 & Hrun & Hh2 & _ & Hc2).
    exists st2. simpl in Hc2. rewrite Hc in Hc2. auto.
  - intros Heq.
    destruct (exact_assign_closes closeAnimation st)
      as [(_ & Hr & Hc) | (Hne & _)]; [|contradiction].
    split; [exact Hr|]. split; [now rewrite Hh | exact Hc].
Qed.

Lemma backdrop_press_closes_witness :
  (exists st1 st2,
      Exact.step sheet500 openAt500 PressBackdrop = Some st1 /\
      running st1 = Some (withTiming 0 (Some CloseIfFinished)) /\
      closes (js st1) = 0%nat /\
      Exact.run sheet500 st1 (map Frame [300; 40] ++ [Finish]) = Some st2 /\
      animatedHeight st2 = 0 /\
      closes (js st2) = 1%nat) /\
  (exists st0 st1,
      Exact.run sheet500 openAt500 [PanStart; PanActive 600; PanEnd]
      = Some st0 /\
      animatedHeight st0 = 0 /\
      Exact.step sheet500 st0 PressBackdrop = Some st1 /\
      running st1 = None /\
      closes (js st1) = 1%nat).
Proof.
  split.
  - destruct (backdrop_press_closes sheet500 openAt500
                eq_refl eq_refl eq_refl eq_refl)
      as (st1 & Hs & _ & Hflight & _).
    destruct Hflight as (Hr & Hc & Hfin); [vm_compute; discriminate|].
    destruct (Hfin [300; 40]) as (st2 & Hrun & Hh & Hc2).
    exists st1, st2. repeat split; assumption.
  - eexists. 
    destruct (backdrop_press_closes sheet500
                (mkSheet 0 None false (Some 500) true
                   (mkJsLog 0 [0; 350; 500; 0]))
                eq_refl eq_refl eq_refl eq_refl)
      as (st1 & Hs & _ & _ & Hnow).
    destruct (Hnow eq_refl) as (Hr & _ & Hc).
    exists st1. split; [vm_compute; reflexivity|].
    split; [reflexivity|]. split; [exact Hs|]. split; [exact Hr | exact Hc].
Defined.

(** ** The close callback: completed, interrupted, replaced *)

(** C10.  The callback registered by a backdrop press or by the close
    branch of a drag end calls [onClose] when it is told [finished = true]
    and does nothing when told [finished = false]; no step raises the close
    count except where such a callback is told [finished = true].  After
    the request, at height 0 the completion is reported at once and
    [onClose] has been called.  At any other height the close animation
    is in flight and [onClose] has not been called; frames do not call it;
    its completion calls it, once; if a drag move or a change of [visible]
    interrupts it, no callback is left waiting and [onClose] is not called
    then or later, as long as no new drag end or backdrop press occurs; and
    if a new drag end or backdrop press replaces it, the replaced animation
    adds no call of its own. *)
Theorem close_callback_needs_finished (p : Props) (st0 st : SheetState) :
  disableClose p = false ->
  st = Exact.handleBackdropPress p st0 \/
  (st = Exact.onEnd p st0 /\
   minHeight p < animatedHeight st0 < maxHeight p /\
   animatedHeight st0 < height p - 80) ->
  (forall l,
      invoke CloseIfFinished false l = l /\
      closes (invoke CloseIfFinished true l) = S (closes l)) /\
  (forall s e s',
      Exact.step p s e = Some s' ->
      closes (js s') = closes (js s) \/
      (closes (js s') = S (closes (js s)) /\
       ((e = Finish /\ callbackPending s = true) \/
        (isCloseRequest e = true /\ animatedHeight s = 0)))) /\
  (animatedHeight st0 = 0 ->
   running st = None /\ closes (js st) = S (closes (js st0))) /\
  (animatedHeight st0 <> 0 ->
   running st = Some closeAnimation /\
   closes (js st) = closes (js st0) /\
   forall vs, exists st1,
     Exact.run p st (map Frame vs) = Some st1 /\
     running st1 = Some closeAnimation /\
     closes (js st1) = closes (js st0) /\
     (exists st2,
         Exact.step p st1 Finish = Some st2 /\
         closes (js st2) = S (closes (js st0))) /\
     (forall e st2 evs st3,
         (exists ty, e = PanActive ty) \/
         (exists v, e = SetVisible v /\ visible st1 = negb v) ->
         Exact.step p st1 e = Some st2 ->
         closeRequests evs = 0%nat ->
         Exact.run p st2 evs = Some st3 ->
         callbackPending st2 = false /\
         closes (js st2) = closes (js st0) /\
         closes (js st3) = closes (js st0)) /\
     (forall e st2,
         isCloseRequest e = true ->
         Exact.step p st1 e = Some st2 ->
         (closes (js st2) + pendingCount st2 <= S (closes (js st0)))%nat)).
Proof.
  intros Hd Hreq.
  assert (Hst : exists st0',
             st = Exact.assignAnimation closeAnimation st0' /\
             animatedHeight st0' = animatedHeight st0 /\
             js st0' = js st0).
  { destruct Hreq as [-> | (-> & Hb & Hlt)].
    - exists st0. rewrite exact_handleBackdropPress_eq, Hd. auto.
    - exists (set_isDragging false st0).
      rewrite (exact_onEnd_close_branch p st0 Hd Hb Hlt). auto. }
  destruct Hst as (st0' & -> & Hh0 & Hjs0).
  split; [intros l; split; reflexivity|].
  split.
  { intros s e s' Hs.
    destruct (exact_step_closes p s e s' Hs)
      as [H | (H & [H' | (H1 & _ & H2)])]; auto. }
  split.
  - intros Heq.
    destruct (exact_assign_closes closeAnimation st0')
      as [(_ & Hr & Hc) | (Hne & _)].
    + split; [exact Hr|]. rewrite Hc, Hjs0. reflexivity.
    + exfalso. apply Hne. now rewrite Hh0.
  - intros Hne.
    destruct (exact_assign_closes closeAnimation st0')
      as [(Heq & _) | (_ & Hr & Hc)].
    { exfalso. apply Hne. now rewrite <- Hh0. }
    rewrite Hjs0 in Hc.
    split; [exact Hr|]. split; [exact Hc|]. intros vs.
    destruct (exact_frames p vs _ _ Hr) as (st1 & Hrun & Hr1 & Hc1 & _).
    rewrite Hc in Hc1.
    assert (Hp1 : callbackPending st1 = true)
      by (unfold callbackPending; now rewrite Hr1).
    exists st1. split; [exact Hrun|]. split; [exact Hr1|].
    split; [exact Hc1|]. split; [|split].
    + destruct (finish_spec p st1 _ Hr1) as (st2 & Hf & _ & _ & _ & _ & Hc2).
      exists st2. split; [exact Hf|]. simpl in Hc2. now rewrite Hc2, Hc1.
    + intros e st2 evs st3 Hint Hs Hnone Hrun3.
      assert (Hq : callbackPending st2 = false /\
                   closes (js st2) = closes (js st1)).
      { destruct Hint as [(ty & ->) | (v & -> & Hv)]; simpl in Hs.
        - destruct (sheetRendered p st1); [|discriminate].
          unfold onActive in Hs. rewrite Hd in Hs.
          destruct (startHeight st1); [|discriminate]. injection Hs as <-.
          split; [apply callbackPending_none|]; apply assignNumber_fields.
        - rewrite Hv in Hs. destruct v; simpl in Hs; injection Hs as <-;
            rewrite exact_visibleEffect_eq; simpl;
            unfold callbackPending;
            match goal with
            | |- context [Exact.assignAnimation ?a ?s] =>
                destruct (exact_assign_closes a s)
                  as [(_ & -> & ->) | (_ & -> & ->)]
            end; split; reflexivity. }
      destruct Hq as [Hq Hc2].
      destruct (exact_run_quiet p evs st2 st3 Hq Hnone Hrun3) as [Hc3 _].
      split; [exact Hq|]. split; [now rewrite Hc2, Hc1|].
      now rewrite Hc3, Hc2, Hc1.
    + intros e st2 He Hs.
      destruct (exact_step_request p st1 e st2 He Hs)
        as [Hle | (Hd' & _)]; [now rewrite <- Hc1|].
      rewrite Hd in Hd'. discriminate Hd'.
Qed.

Lemma close_callback_needs_finished_witness :
  running (Exact.onEnd sheet500 draggedTo200) = Some closeAnimation /\
  closes (js (Exact.onEnd sheet500 draggedTo200)) = 0%nat /\
  (exists st1 st2,
      Exact.run sheet500 (Exact.onEnd sheet500 draggedTo200)
        (map Frame [150; 60]) = Some st1 /\
      Exact.step sheet500 st1 Finish = Some st2 /\
      closes (js st2) = 1%nat) /\
  (exists st1 st2 st3,
      Exact.run sheet500 (Exact.onEnd sheet500 draggedTo200)
        (map Frame [150; 60]) = Some st1 /\
      Exact.step sheet500 st1 (PanActive 380) = Some st2 /\
      Exact.run sheet500 st2 [Frame 7; SetVisible false; Finish] = None /\
      Exact.run sheet500 st2 [SetVisible false; Frame 7; Finish] = Some st3 /\
      closes (js st3) = 0%nat).
Proof.
  destruct (close_callback_needs_finished sheet500 draggedTo200
              (Exact.onEnd sheet500 draggedTo200) eq_refl)
    as (_ & _ & _ & Hflight).
  - right. split; [reflexivity|]. vm_compute. repeat split; discriminate.
  - destruct Hflight as (Hr & Hc & Hrest); [vm_compute; discriminate|].
    split; [exact Hr|]. split; [exact Hc|].
    destruct (Hrest [150; 60]) as (st1 & Hrun & _ & _ & Hfin & Hint & _).
    split.
    + destruct Hfin as (st2 & Hf & Hc2). exists st1, st2. auto.
    + assert (Hst1 : Some st1 =
                     Some (mkSheet 60 (Some closeAnimation) false (Some 500)
                             true (mkJsLog 0 [0; 350; 500; 200; 150; 60]))).
      { rewrite <- Hrun. vm_compute. reflexivity. }
      injection Hst1 as ->.
      exists (mkSheet 60 (Some closeAnimation) false (Some 500) true
                (mkJsLog 0 [0; 350; 500; 200; 150; 60])).
      eexists. eexists.
      split; [exact Hrun|]. split; [vm_compute; reflexivity|].
      split; [vm_compute; reflexivity|].
      split; [vm_compute; reflexivity|].
      refine (proj2 (proj2 (Hint (PanActive 380) _
                              [SetVisible false; Frame 7; Finish] _
                              (or_introl (ex_intro _ 380 eq_refl)) _ _ _))).
      * vm_compute; reflexivity.
      * reflexivity.
      * vm_compute; reflexivity.
Defined.

(** ** Repeated backdrop presses *)

Lemma last_nonzero (vs : list Z) (h : Z) :
  h <> 0 -> Forall (fun v => v <> 0) vs -> last vs h <> 0.
Proof.
  intros Hh Hall. revert h Hh.
  induction Hall as [|v vs Hv Hall IH]; intros h Hh; [exact Hh|].
  destruct vs as [|w vs]; [exact Hv|].
  change (last (w :: vs) h <> 0). now apply IH.
Qed.

Lemma pressAgain_restarts p vss : forall st,
  disableClose p = false ->
  backdropRendered p st = true ->
  running st = Some closeAnimation ->
  animatedHeight st <> 0 ->
  Forall (Forall (fun v => v <> 0)) vss ->
  exists st1,
    Exact.run p st (pressAgain vss) = Some st1 /\
    running st1 = Some closeAnimation /\
    closes (js st1) = closes (js st).
Proof.
  induction vss as [|vs vss IH]; intros st Hd Hb Hr Hne Hall.
  - exists st. auto.
  - inversion Hall as [|? ? Hvs Hvss]; subst.
    destruct (exact_frames p vs st _ Hr)
      as (st1 & Hrun1 & Hr1 & Hc1 & _ & Hv1 & Hh1).
    assert (Hb1 : backdropRendered p st1 = true)
      by (rewrite <- Hb; now apply backdropRendered_visible).
    assert (Hne1 : animatedHeight st1 <> 0)
      by (rewrite Hh1; now apply last_nonzero).
    set (st2 := Exact.handleBackdropPress p st1).
    assert (Hst2 : st2 = set_running (Some closeAnimation) st1).
    { unfold st2. rewrite exact_handleBackdropPress_eq, Hd.
      now apply exact_assign_in_flight. }
    destruct (IH st2 Hd) as (st3 & Hrun3 & Hr3 & Hc3).
    + rewrite <- Hb1. apply backdropRendered_visible. now rewrite Hst2.
    + now rewrite Hst2.
    + now rewrite Hst2.
    + exact Hvss.
    + exists st3. split; [|split; [exact Hr3|]].
      * unfold pressAgain. cbn [flat_map]. fold (pressAgain vss).
        rewrite <- !app_assoc, exact_run_app, Hrun1. cbn [app].
        rewrite exact_run_cons. simpl Exact.step. rewrite Hb1.
        fold st2. exact Hrun3.
      * rewrite Hc3, Hst2. simpl. exact Hc1.
Qed.

Lemma presses_at_zero p n : forall st,
  disableClose p = false ->
  backdropRendered p st = true ->
  animatedHeight st = 0 ->
  exists st',
    Exact.run p st (repeat PressBackdrop n) = Some st' /\
    animatedHeight st' = 0 /\
    closes (js st') = (closes (js st) + n)%nat.
Proof.
  induction n as [|n IH]; intros st Hd Hb Hz.
  - exists st. repeat split; [exact Hz | lia].
  - set (st1 := Exact.handleBackdropPress p st).
    assert (Hst1 : st1 = Exact.assignAnimation closeAnimation st)
      by (unfold st1; now rewrite exact_handleBackdropPress_eq, Hd).
    destruct (exact_assign_fields closeAnimation st) as (Hh & _ & _ & Hv & _).
    destruct (exact_assign_closes closeAnimation st)
      as [(_ & _ & Hc) | (Hne & _)]; [|now elim Hne].
    destruct (IH st1 Hd) as (st' & Hrun & Hz' & Hc').
    + rewrite <- Hb. apply backdropRendered_visible. now rewrite Hst1.
    + now rewrite Hst1, Hh.
    + exists st'. cbn [repeat]. rewrite exact_run_cons. simpl Exact.step.
      rewrite Hb. fold st1. split; [exact Hrun|]. split; [exact Hz'|].
      rewrite Hc', Hst1, Hc. simpl. lia.
Qed.

(** With closing enabled and the backdrop on screen.  While the height is
    not 0 (at the first press and after the frames before each further
    press), pressing the backdrop again, any number of times, only
    restarts the close animation: when it completes the height is 0 and
    [onClose] has been called once.  At height 0 nothing is animated and
    every press calls [onClose] at once, so [n] presses make [n] calls. *)
Theorem repeated_backdrop_presses_close_once
  (p : Props) (st : SheetState) :
  disableClose p = false ->
  backdropRendered p st = true ->
  (animatedHeight st <> 0 ->
   forall vss vs,
     Forall (Forall (fun v => v <> 0)) vss ->
     exists st',
       Exact.run p st
         ([PressBackdrop] ++ pressAgain vss ++ map Frame vs ++ [Finish])
       = Some st' /\
       animatedHeight st' = 0 /\
       closes (js st') = S (closes (js st))) /\
  (animatedHeight st = 0 ->
   forall n, exists st',
     Exact.run p st (repeat PressBackdrop n) = Some st' /\
     animatedHeight st' = 0 /\
     closes (js st') = (closes (js st) + n)%nat).
Proof.
  intros Hd Hb. split.
  - intros Hne vss vs Hall.
    set (st0 := Exact.handleBackdropPress p st).
    assert (Hst0 : st0 = set_running (Some closeAnimation) st).
    { unfold st0. rewrite exact_handleBackdropPress_eq, Hd.
      now apply exact_assign_in_flight. }
    assert (Hb0 : backdropRendered p st0 = true)
      by (rewrite <- Hb; apply backdropRendered_visible; now rewrite Hst0).
    assert (Hr0 : running st0 = Some closeAnimation) by now rewrite Hst0.
    assert (Hne0 : animatedHeight st0 <> 0) by now rewrite Hst0.
    destruct (pressAgain_restarts p vss st0 Hd Hb0 Hr0 Hne0 Hall)
      as (st1 & Hrun1 & Hr1 & Hc1).
    destruct (exact_settles p vs st1 _ Hr1) as (st2 & Hrun2 & Hh2 & _ & Hc2).
    exists st2. split; [|split; [exact Hh2|]].
    + cbn [app]. rewrite exact_run_cons. simpl Exact.step. rewrite Hb.
      fold st0. now rewrite exact_run_app, Hrun1.
    + simpl in Hc2. rewrite Hc2, Hc1, Hst0. reflexivity.
  - intros Hz n. now apply presses_at_zero.
Qed.

Lemma repeated_backdrop_presses_close_once_witness :
  (exists st',
      Exact.run sheet500 openAt500
        ([PressBackdrop] ++ pressAgain [[400; 310]; []; [150]]
         ++ map Frame [20] ++ [Finish]) = Some st' /\
      animatedHeight st' = 0 /\
      closes (js st') = 1%nat) /\
  (exists st',
      Exact.run sheet500
        (mkSheet 0 None false (Some 500) true (mkJsLog 0 [0; 350; 500; 0]))
        (repeat PressBackdrop 2%nat) = Some st' /\
      closes (js st') = 2%nat).
Proof.
  split.
  - refine (proj1 (repeated_backdrop_presses_close_once sheet500 openAt500
                     eq_refl eq_refl) _ [[400; 310]; []; [150]] [20] _).
    + vm_compute; discriminate.
    + repeat constructor; discriminate.
  - destruct (proj2 (repeated_backdrop_presses_close_once sheet500
                       (mkSheet 0 None false (Some 500) true
                          (mkJsLog 0 [0; 350; 500; 0]))
                       eq_refl eq_refl) eq_refl 2%nat)
      as (st' & Hrun & _ & Hc).
    exists st'. split; [exact Hrun | exact Hc].
Defined.
